(** * Dependency management of [utils/dependency_management.py]

    A shallow embedding of the command bodies of the `dependency_management`
    utility: the two rewrites of `setup.json` ([unrestrict_requirements],
    [update_requirements]) and the consistency checks
    ([validate_environment_yml], [validate_rtd_reqs]).

    Python values are modelled as follows.
    - [str] is [string]; a character is a code point below 256.
    - a [list] of [str] is [list string]; a [set] of [str] is [gset string].
    - `setup.json` is a record with the keys the commands read; the
      `extras_require` dictionary is the list of its items in insertion order.
    - a raised exception is the [Raise] case of [result]; the exception class
      and its message are kept apart. *)

From Stdlib Require Import String Ascii.
From stdpp Require Import base list sorting gmap strings pretty.

Open Scope string_scope.

(** ** Exceptions *)

Inductive ExceptionClass :=
  | TypeError
  | ValueError
  | KeyError
  | AssertionError
  | ClickException.

Global Instance ExceptionClass_eq_dec : EqDecision ExceptionClass.
Proof. solve_decision. Defined.

Inductive result (A : Type) :=
  | Ok (a : A)
  | Raise (cls : ExceptionClass) (msg : string).
Arguments Ok {A} a.
Arguments Raise {A} cls msg.

Global Instance result_ret : MRet result := fun _ a => Ok a.
Global Instance result_bind : MBind result := fun _ _ k m =>
  match m with
  | Ok a => k a
  | Raise cls msg => Raise cls msg
  end.

(** A [for] loop that builds a list with [append]; the first exception
    raised by the body leaves the loop. *)
Fixpoint for_each {A B} (body : A -> result B) (xs : list A) : result (list B) :=
  match xs with
  | [] => Ok []
  | x :: xs' =>
      y ← body x;
      ys ← for_each body xs';
      Ok (y :: ys)
  end.

(** ** Python string primitives *)

Module Str.

(** [sub in s] for two strings. *)
Fixpoint contains (sub s : string) : bool :=
  match s with
  | EmptyString => String.prefix sub EmptyString
  | String _ s' => String.prefix sub s || contains sub s'
  end.

(** [s.split(sep)] for a non-empty separator: the text is cut at the
    leftmost occurrences of [sep] that do not overlap. [skip] counts the
    characters of a separator found earlier that are still to be passed. *)
Fixpoint split_from (sep : string) (skip : nat) (s : string) : list string :=
  match s with
  | EmptyString => [EmptyString]
  | String c s' =>
      match skip with
      | S k => split_from sep k s'
      | O =>
          if String.prefix sep s
          then EmptyString :: split_from sep (String.length sep - 1) s'
          else match split_from sep 0 s' with
               | piece :: rest => String c piece :: rest
               | [] => [String c EmptyString]
               end
      end
  end.

Definition split (sep s : string) : list string := split_from sep 0 s.

(** [sep.join(parts)] for a list of strings. *)
Fixpoint join (sep : string) (parts : list string) : string :=
  match parts with
  | [] => EmptyString
  | [p] => p
  | p :: rest => p ++ sep ++ join sep rest
  end.

(** [c.isspace()] below code point 256. *)
Definition isspace (c : ascii) : bool :=
  let n := N_of_ascii c in
  ((9 <=? n) && (n <=? 13) || (28 <=? n) && (n <=? 32)
   || (n =? 133) || (n =? 160))%N.

Fixpoint lstrip (s : string) : string :=
  match s with
  | EmptyString => EmptyString
  | String c s' => if isspace c then lstrip s' else s
  end.

Fixpoint rstrip (s : string) : string :=
  match s with
  | EmptyString => EmptyString
  | String c s' =>
      match rstrip s' with
      | EmptyString => if isspace c then EmptyString else String c EmptyString
      | t => String c t
      end
  end.

(** [s.strip()] *)
Definition strip (s : string) : string := rstrip (lstrip s).

(** [c.lower()] below code point 256: the letters A-Z and the accented
    capitals 192-222 (the multiplication sign 215 apart) move up by 32. *)
Definition lower_char (c : ascii) : ascii :=
  let n := N_of_ascii c in
  if ((65 <=? n) && (n <=? 90)
      || (192 <=? n) && (n <=? 222) && negb (n =? 215))%N
  then ascii_of_N (n + 32) else c.

(** [s.lower()] *)
Fixpoint lower (s : string) : string :=
  match s with
  | EmptyString => EmptyString
  | String c s' => String (lower_char c) (lower s')
  end.

(** [s1 <= s2] and [s1 >= s2] on strings: code points compared left to
    right. *)
Definition le (s1 s2 : string) : Prop := String.leb s1 s2 = true.
Definition geb (s1 s2 : string) : bool := String.leb s2 s1.

Global Instance le_dec : RelDecision le.
Proof. intros s1 s2. unfold le. apply _. Defined.

End Str.

(** ** `setup.json` *)

(** The keys of `setup.json` that the commands read. [copy.deepcopy] and the
    in-place assignments of the commands touch [install_requires] and
    [extras_require] only. *)
Record Setup := {
  install_requires : list string;
  extras_require : list (string * list string);
  python_requires : string;
  classifiers : list string;
}.

Definition DEFAULT_EXCLUDE_LIST : list string :=
  ["django"; "circus"; "numpy"; "pymatgen"; "ase"; "monty"; "pyyaml"].

(** ** `unrestrict` *)

(** [receiver.extend(extra)]: the receiver is changed in place and the call
    itself evaluates to [None]. The pair is the receiver afterwards and the
    value of the call. *)
Definition list_extend (receiver extra : list string)
  : list string * option (list string) :=
  ((receiver ++ extra)%list, None).

(** [x in container] where [container] is a list or [None]. *)
Definition py_in (x : string) (container : option (list string)) : result bool :=
  match container with
  | Some l => Ok (bool_decide (x ∈ l))
  | None => Raise TypeError "argument of type 'NoneType' is not iterable"
  end.

(** The value bound to [exclude] after the [if exclude: ... else: ...]. *)
Definition rebind_exclude (exclude : list string) : option (list string) :=
  match exclude with
  | _ :: _ => snd (list_extend exclude DEFAULT_EXCLUDE_LIST)
  | [] => Some DEFAULT_EXCLUDE_LIST
  end.

(** [requirement.split('==')[0]] *)
Definition package_of (requirement : string) : string :=
  hd EmptyString (Str.split "==" requirement).

(** One turn of the loop over the requirements of a group: the string that
    is appended to the clone. *)
Definition unrestrict_requirement (exclude : option (list string))
    (requirement : string) : result string :=
  excluded ← py_in requirement exclude;
  if excluded || Str.contains ";" requirement
     || negb (Str.contains "==" requirement)
  then Ok requirement
  else Ok (package_of requirement).

Definition unrestrict_group (exclude : option (list string))
    (requirements : list string) : result (list string) :=
  for_each (unrestrict_requirement exclude) requirements.

(** The clone handed to [write_setup_json]. *)
Definition unrestrict_requirements (exclude : list string) (setup : Setup)
  : result Setup :=
  let exclude' := rebind_exclude exclude in
  install ← unrestrict_group exclude' (install_requires setup);
  extras ← for_each
    (fun item : string * list string =>
       requirements ← unrestrict_group exclude' (snd item);
       Ok (fst item, requirements))
    (extras_require setup);
  Ok {| install_requires := install;
        extras_require := extras;
        python_requires := python_requires setup;
        classifiers := classifiers setup |}.

(** ** `update` *)

(** [package, version = parts]: unpacking into two names. *)
Definition unpack_pair (parts : list string) : result (string * string) :=
  match parts with
  | [package; version] => Ok (package, version)
  | [] => Raise ValueError "not enough values to unpack (expected 2, got 0)"
  | [_] => Raise ValueError "not enough values to unpack (expected 2, got 1)"
  | _ => Raise ValueError "too many values to unpack (expected 2)"
  end.

(** [try: body except ValueError: handler]: another exception passes. *)
Definition try_except_ValueError {A} (body : result A) (handler : result A)
  : result A :=
  match body with
  | Raise ValueError _ => handler
  | other => other
  end.

(** The loop over [requirements.readlines()]: a line whose unpacking raises
    [ValueError] is passed over with [continue]. *)
Fixpoint read_package_versions (lines : list string)
  : result (list (string * string)) :=
  match lines with
  | [] => Ok []
  | requirement :: rest =>
      step ← try_except_ValueError
        (pv ← unpack_pair (Str.split "==" (Str.strip requirement)); Ok [pv])
        (Ok []);
      others ← read_package_versions rest;
      Ok (step ++ others)%list
  end.

(** The inner [for ... else] over the package versions: the string that is
    added to the set for one requirement. *)
Fixpoint updated_requirement (package_versions : list (string * string))
    (requirement : string) : string :=
  match package_versions with
  | [] => requirement
  | (package, version) :: rest =>
      if String.eqb (Str.lower requirement) (Str.lower package)
      then Str.lower package ++ "==" ++ version
      else updated_requirement rest requirement
  end.

(** [sorted(requirements)] for a set of strings. *)
Definition sorted (requirements : gset string) : list string :=
  merge_sort Str.le (elements requirements).

(** The body of one group: the set is filled from the requirements and
    sorted. *)
Definition update_group (package_versions : list (string * string))
    (requirements : list string) : list string :=
  sorted (list_to_set (updated_requirement package_versions <$> requirements)).

(** The `setup.json` handed to [write_setup_json]; [lines] is what
    [requirements.readlines()] returns. *)
Definition update_requirements (lines : list string) (setup : Setup)
  : result Setup :=
  package_versions ← read_package_versions lines;
  Ok {| install_requires :=
          update_group package_versions (install_requires setup);
        extras_require :=
          (fun item : string * list string =>
             (fst item, update_group package_versions (snd item)))
          <$> extras_require setup;
        python_requires := python_requires setup;
        classifiers := classifiers setup |}.

(** ** Requirement objects of `pkg_resources` *)

(** One version clause of a requirement, `spec.operator` and `spec.version`;
    both are strings. *)
Record Specifier := {
  operator : string;
  version : string;
}.

(** What the commands use of `pkg_resources.Requirement`: the attribute
    [name], the clauses of [specifier] in the order the iteration gives
    them, [str(req)], [req == other] and [Requirement.parse]. *)
Class PkgResources := {
  Requirement : Type;
  req_name : Requirement -> string;
  req_specifier : Requirement -> list Specifier;
  req_str : Requirement -> string;
  req_eqb : Requirement -> Requirement -> bool;
  parse : string -> result Requirement;
}.

Definition SETUPTOOLS_CONDA_MAPPINGS : list (string * string) :=
  [("psycopg2-binary", "psycopg2"); ("graphviz", "python-graphviz")].

Definition CONDA_IGNORE : list string := ["pyblake2"].

Definition newline : string := String "010"%char EmptyString.

(** [re.match(pattern, text)] as a truth value and
    [re.sub(pattern, replacement, text)], for the patterns of the two tables
    above, which consist of literal characters only. *)
Definition re_match (pattern text : string) : bool := String.prefix pattern text.
Definition re_sub (pattern replacement text : string) : string :=
  Str.join replacement (Str.split pattern text).

(** An item handed to [str.join]. *)
Inductive JoinItem `{PkgResources} :=
  | ItemStr (s : string)
  | ItemRequirement (r : Requirement).

Section Validation.
Context `{PkgResources}.

(** *** Sets of requirements

    A set is the list of its members in iteration order, without two
    members that are [==]; the iteration order is taken to be the order of
    insertion. *)
Definition set_mem (x : Requirement) (s : list Requirement) : bool :=
  existsb (req_eqb x) s.

Definition set_add (x : Requirement) (s : list Requirement) : list Requirement :=
  if set_mem x s then s else (s ++ [x])%list.

(** [s.update(items)] *)
Definition set_update (s items : list Requirement) : list Requirement :=
  fold_left (fun acc x => set_add x acc) items s.

(** [{... for ... in items}] *)
Definition set_of_list (items : list Requirement) : list Requirement :=
  set_update [] items.

(** [s.remove(x)] *)
Definition set_remove (x : Requirement) (s : list Requirement)
  : result (list Requirement) :=
  if set_mem x s
  then Ok (filter (fun y => req_eqb x y = false) s)
  else Raise KeyError (req_str x).

(** [s1 == s2]: each member of one set is a member of the other. *)
Definition set_eqb (s1 s2 : list Requirement) : bool :=
  forallb (fun x => set_mem x s2) s1 && forallb (fun x => set_mem x s1) s2.

(** [sep.join(items)]: an item that is not a string raises [TypeError]. *)
Fixpoint str_join_from (index : nat) (sep : string) (items : list JoinItem)
  : result string :=
  match items with
  | [] => Ok EmptyString
  | ItemRequirement _ :: _ =>
      Raise TypeError ("sequence item " ++ pretty index
                       ++ ": expected str instance, Requirement found")
  | ItemStr s :: rest =>
      match rest with
      | [] => Ok s
      | _ => tail ← str_join_from (S index) sep rest; Ok (s ++ sep ++ tail)
      end
  end.

Definition str_join (sep : string) (items : list JoinItem) : result string :=
  str_join_from 0 sep items.

(** *** `_setuptools_to_conda` *)
Fixpoint setuptools_to_conda_in (mappings : list (string * string))
    (req : Requirement) : result Requirement :=
  match mappings with
  | [] => Ok req
  | (pattern, replacement) :: rest =>
      if re_match pattern (req_str req)
      then parse (re_sub pattern replacement (req_str req))
      else setuptools_to_conda_in rest req
  end.

Definition _setuptools_to_conda (req : Requirement) : result Requirement :=
  setuptools_to_conda_in SETUPTOOLS_CONDA_MAPPINGS req.

(** *** `validate-environment-yml` *)

(** The first loop: the dependency named `python` is taken out of the
    set. *)
Definition find_python (conda_dependencies : list Requirement)
  : result (Requirement * list Requirement) :=
  match List.find (fun dependency => String.eqb (req_name dependency) "python")
                  conda_dependencies with
  | Some dependency =>
      rest ← set_remove dependency conda_dependencies;
      Ok (dependency, rest)
  | None =>
      Raise ClickException
        "Did not find specification of Python version in 'environment.yml'."
  end.

(** The second loop, which ends after its first turn with [break]. *)
Definition check_python_specifier (classifiers : list string)
    (conda_python_dependency python_requires : Requirement) : result unit :=
  match req_specifier conda_python_dependency with
  | spec :: _ =>
      let expected_classifier :=
        "Programming Language :: Python :: " ++ version spec in
      if negb (bool_decide (expected_classifier ∈ classifiers))
      then Raise ClickException
             ("Trove classifier '" ++ expected_classifier
              ++ "' missing from 'setup.json'.")
      else if negb (existsb
                      (fun other_spec =>
                         Str.geb (version spec) (version other_spec))
                      (req_specifier python_requires))
      then Raise ClickException
             "Required Python version between 'setup.json' and 'environment.yml' not consistent."
      else Ok tt
  | [] =>
      Raise ClickException
        ("Missing specifier: '" ++ req_str conda_python_dependency ++ "'.")
  end.

(** The third loop: each requirement of `setup.json` that is not ignored
    is removed from the set of conda dependencies. *)
Fixpoint match_requirements (install_requirements : list Requirement)
    (conda_dependencies : list Requirement) : result (list Requirement) :=
  match install_requirements with
  | [] => Ok conda_dependencies
  | req :: rest =>
      if existsb (fun ignore => re_match ignore (req_str req)) CONDA_IGNORE
      then match_requirements rest conda_dependencies
      else
        translated ← _setuptools_to_conda req;
        match set_remove translated conda_dependencies with
        | Ok remaining => match_requirements rest remaining
        | Raise KeyError _ =>
            Raise ClickException
              ("Requirement '" ++ req_str req
               ++ "' not specified in 'environment.yml'.")
        | Raise cls msg => Raise cls msg
        end
  end.

(** The final test on what is left of the conda dependencies. *)
Definition check_leftover (conda_dependencies : list Requirement)
  : result unit :=
  if Nat.ltb 0 (List.length conda_dependencies)
  then
    listing ← str_join (newline ++ "- ")
                       (map ItemRequirement conda_dependencies);
    Raise ClickException
      ("The 'environment.yml' file contains dependencies that are missing "
       ++ "in 'setup.json':" ++ newline ++ "- " ++ listing)
  else Ok tt.

(** [dependencies] is the list under the key `dependencies` of
    `environment.yml`. *)
Definition validate_environment_yml (setup_cfg : Setup)
    (dependencies : list string) : result unit :=
  install_requirements ← for_each parse (install_requires setup_cfg);
  python_requires ← parse ("python" ++ python_requires setup_cfg);
  parsed ← for_each parse dependencies;
  found ← find_python (set_of_list parsed);
  check_python_specifier (classifiers setup_cfg) (fst found) python_requires;;
  remaining ← match_requirements install_requirements (snd found);
  check_leftover remaining.

(** *** `validate-rtd-reqs` *)

(** [setup_cfg['extras_require'][key]] *)
Definition extras_get (setup_cfg : Setup) (key : string)
  : result (list string) :=
  match List.find (fun item => String.eqb (fst item) key)
                  (extras_require setup_cfg) with
  | Some item => Ok (snd item)
  | None => Raise KeyError ("'" ++ key ++ "'")
  end.

(** The set of the requirements of `install_requires` and of the four
    extras. *)
Fixpoint update_from_extras (setup_cfg : Setup) (keys : list string)
    (install_requirements : list Requirement) : result (list Requirement) :=
  match keys with
  | [] => Ok install_requirements
  | key :: rest =>
      texts ← extras_get setup_cfg key;
      parsed ← for_each parse texts;
      update_from_extras setup_cfg rest
        (set_update install_requirements (set_of_list parsed))
  end.

Definition combined_requirements (setup_cfg : Setup)
  : result (list Requirement) :=
  parsed ← for_each parse (install_requires setup_cfg);
  update_from_extras setup_cfg ["testing"; "docs"; "rest"; "atomic_tools"]
    (set_of_list parsed).

(** [rtd_lines] are the lines of `docs/requirements_for_rtd.txt`. *)
Definition validate_rtd_reqs (setup_cfg : Setup) (rtd_lines : list string)
  : result unit :=
  install_requirements ← combined_requirements setup_cfg;
  parsed ← for_each parse rtd_lines;
  let reqs := set_of_list parsed in
  if set_eqb reqs install_requirements
  then Ok tt
  else Raise AssertionError EmptyString.

End Validation.

(** ** Requirement objects given by a table

    For the evaluation of the checks on given files, the results of
    [Requirement.parse] on the texts that occur are listed in a table: the
    project name as written, its key (the name in lower case), the version
    clauses and the text that [str] gives. Two requirements are [==] when
    their keys are the same and each clause of one is a clause of the
    other. *)
Record ParsedRequirement := {
  parsed_name : string;
  parsed_key : string;
  parsed_specifier : list Specifier;
  parsed_str : string;
}.

Definition specifier_eqb (s1 s2 : Specifier) : bool :=
  String.eqb (operator s1) (operator s2) && String.eqb (version s1) (version s2).

Definition parsed_eqb (r1 r2 : ParsedRequirement) : bool :=
  String.eqb (parsed_key r1) (parsed_key r2)
  && forallb (fun s => existsb (specifier_eqb s) (parsed_specifier r2))
             (parsed_specifier r1)
  && forallb (fun s => existsb (specifier_eqb s) (parsed_specifier r1))
             (parsed_specifier r2).

Definition table_parse (table : list (string * ParsedRequirement))
    (text : string) : result ParsedRequirement :=
  match List.find (fun entry => String.eqb (fst entry) text) table with
  | Some entry => Ok (snd entry)
  | None => Raise ValueError ("Parse error at '" ++ text ++ "'")
  end.

Definition table_resources (table : list (string * ParsedRequirement))
  : PkgResources :=
  {| Requirement := ParsedRequirement;
     req_name := parsed_name;
     req_specifier := parsed_specifier;
     req_str := parsed_str;
     req_eqb := parsed_eqb;
     parse := table_parse table |}.

(** A requirement without version clause, and one with a single clause. *)
Definition bare (name : string) : ParsedRequirement :=
  {| parsed_name := name; parsed_key := Str.lower name;
     parsed_specifier := []; parsed_str := name |}.

Definition clause (name op ver : string) : ParsedRequirement :=
  {| parsed_name := name; parsed_key := Str.lower name;
     parsed_specifier := [{| operator := op; version := ver |}];
     parsed_str := name ++ op ++ ver |}.

(** ** Statements about the rewrites *)

(** What `unrestrict` is to do with a requirement [r] of which [r'] takes
    the place: when the package of [r] is not excluded and [r] has no
    environment marker, no `==` is left, and a pinned [r] is cut down to its
    package. *)
Definition pin_removed (exclude_set : list string) (r r' : string) : Prop :=
  package_of r ∉ exclude_set ->
  Str.contains ";" r = false ->
  Str.contains "==" r' = false
  /\ (Str.contains "==" r = true -> r' = package_of r).

(** [r'] is what `update` puts in the place of [r]: the pin of the first
    package version whose package is [r] up to case, or [r] itself when
    there is none. *)
Definition pinned_by (package_versions : list (string * string))
    (r r' : string) : Prop :=
  (exists (i : nat) (package version : string),
      package_versions !! i = Some (package, version)
      /\ Str.lower r = Str.lower package
      /\ (forall (j : nat) (pv : string * string),
            j < i -> package_versions !! j = Some pv ->
            Str.lower r <> Str.lower (fst pv))
      /\ r' = Str.lower package ++ "==" ++ version)
  \/ ((forall pv : string * string,
         pv ∈ package_versions -> Str.lower r <> Str.lower (fst pv))
      /\ r' = r).

(** The requirements [reqs'] of a group after `update` are the results for
    the requirements [reqs] before it. *)
Definition group_pinned (package_versions : list (string * string))
    (reqs reqs' : list string) : Prop :=
  forall r' : string,
    r' ∈ reqs' <-> exists r : string, r ∈ reqs /\ pinned_by package_versions r r'.

Definition no_pin_in_package (pv : string * string) : Prop :=
  Str.contains "==" (fst pv) = false.

(** Membership in a set of requirements as a proposition, and the
    agreement of two collections on every requirement. *)
Definition same_requirements `{PkgResources} (s1 s2 : list Requirement) : Prop :=
  forall r : Requirement, set_mem r s1 = set_mem r s2.

(** The requirements of the group [key] of the extras, parsed. *)
Definition group_parsed `{PkgResources} (setup_cfg : Setup) (key : string)
    (group : list Requirement) : Prop :=
  exists texts : list string,
    extras_get setup_cfg key = Ok texts /\ for_each parse texts = Ok group.

(** ** Sample files *)

(** A `setup.json` with the given install list and no extras. *)
Definition manifest (requirements : list string) : Setup :=
  {| install_requires := requirements;
     extras_require := [];
     python_requires := ">=3.5";
     classifiers := [] |}.

(** A `setup.json` for Python 3.7 and later, with the four groups of extras
    that the documentation list is made of. *)
Definition sample_setup (requirements : list string) : Setup :=
  {| install_requires := requirements;
     extras_require :=
       [("testing", []); ("docs", []); ("rest", []); ("atomic_tools", [])];
     python_requires := ">=3.7";
     classifiers :=
       ["Programming Language :: Python :: 3.7";
        "Programming Language :: Python :: 3.10"] |}.

(** What [Requirement.parse] gives for the texts of the sample files. *)
Definition sample_table : list (string * ParsedRequirement) :=
  [("six==1.12.0", clause "six" "==" "1.12.0");
   ("numpy==1.17.4", clause "numpy" "==" "1.17.4");
   ("python>=3.7", clause "python" ">=" "3.7");
   ("python~=3.6", clause "python" "~=" "3.6");
   ("python~=3.7", clause "python" "~=" "3.7");
   ("python~=3.10", clause "python" "~=" "3.10")].

Definition sample_resources : PkgResources := table_resources sample_table.

(** ** The commands that write files, and the other checks *)

(** The document that `generate-environment-yml` hands to [yaml.safe_dump]. *)
Record Environment := {
  env_name : string;
  env_channels : list string;
  env_dependencies : list string;
}.

(** The lines that the iteration over a text file gives, each with its
    line end when it has one. *)
Fixpoint file_lines (content : string) : list string :=
  match content with
  | EmptyString => []
  | String c rest =>
      if Ascii.eqb c "010"%char
      then newline :: file_lines rest
      else match file_lines rest with
           | [] => [String c EmptyString]
           | line :: lines => String c line :: lines
           end
  end.

(** [sorted(texts)] for a list of strings. *)
Definition sorted_list (texts : list string) : list string :=
  merge_sort Str.le texts.

Section Generation.
Context `{PkgResources}.

(** [x in items] for a list of requirements. *)
Definition list_mem (x : Requirement) (items : list Requirement) : bool :=
  existsb (req_eqb x) items.

(** *** `generate-environment-yml` *)

(** The loop over the install requirements: the strings appended to
    [conda_requires] after its first entry. *)
Fixpoint conda_requires_of (install_requirements : list Requirement)
  : result (list string) :=
  match install_requirements with
  | [] => Ok []
  | req :: rest =>
      if String.eqb (req_name req) "python"
         || existsb (fun ignore => re_match ignore (req_str req)) CONDA_IGNORE
      then conda_requires_of rest
      else
        translated ← _setuptools_to_conda req;
        others ← conda_requires_of rest;
        Ok (req_str translated :: others)
  end.

Definition generate_environment_yml (setup_cfg : Setup) : result Environment :=
  install_requirements ← for_each parse (install_requires setup_cfg);
  appended ← conda_requires_of install_requirements;
  Ok {| env_name := "aiida";
        env_channels := ["conda-forge"; "defaults"];
        env_dependencies := "python~=3.7" :: appended |}.

(** *** `generate-rtd-reqs`: the text written to
    `docs/requirements_for_rtd.txt`. *)
Definition generate_requirements_for_rtd (setup_cfg : Setup) : result string :=
  install_requirements ← combined_requirements setup_cfg;
  Ok (Str.join newline (sorted_list (req_str <$> install_requirements))).

(** *** `validate-pyproject-toml`

    [pyproject] is the list under `build-system`, `requires` of
    `pyproject.toml`, or [None] when the file is not there. *)
Definition validate_pyproject_toml (setup_cfg : Setup)
    (pyproject : option (list string)) : result unit :=
  install_requirements ← for_each parse (install_requires setup_cfg);
  match List.find (fun requirement => String.eqb (req_name requirement) "reentry")
                  install_requirements with
  | Some reentry_requirement =>
      match pyproject with
      | Some requires =>
          pyproject_requires ← for_each parse requires;
          if negb (list_mem reentry_requirement pyproject_requires)
          then Raise ClickException
                 ("Missing requirement '" ++ req_str reentry_requirement
                  ++ "' in 'pyproject.toml'.")
          else Ok tt
      | None => Raise ClickException "The 'pyproject.toml' file is missing!"
      end
  | None =>
      Raise ClickException "Failed to find reentry requirement in 'setup.json'."
  end.

(** *** `validate-all` *)
Definition validate_all (setup_cfg : Setup) (dependencies : list string)
    (pyproject : option (list string)) (rtd_lines : list string) : result unit :=
  validate_environment_yml setup_cfg dependencies;;
  validate_pyproject_toml setup_cfg pyproject;;
  validate_rtd_reqs setup_cfg rtd_lines.

(** Whether a requirement of `setup.json` is passed over for conda. *)
Definition conda_ignored (req : Requirement) : bool :=
  existsb (fun ignore => re_match ignore (req_str req)) CONDA_IGNORE.

End Generation.

(** ** Further statements about the rewrites *)

(** A requirement that `unrestrict` writes back as it is. *)
Definition kept_as_is (r : string) : Prop :=
  Str.contains ";" r = true \/ Str.contains "==" r = false.

(** A requirement `package==version` with one `==`, no environment marker
    and the package in lower case. *)
Definition plain_pin (r : string) : Prop :=
  List.length (Str.split "==" r) = 2
  /\ Str.contains ";" r = false
  /\ Str.lower (package_of r) = package_of r.

(** No two entries of a snapshot have the same package up to case. *)
Definition packages_unique (package_versions : list (string * string)) : Prop :=
  NoDup ((fun pv : string * string => Str.lower (fst pv)) <$> package_versions).

(** The requirements of all groups of a `setup.json`. *)
Definition all_requirements (setup : Setup) : list string :=
  (install_requires setup ++ concat (snd <$> extras_require setup))%list.

(** The `setup.json` with each group as the sorted set of its
    requirements. *)
Definition sort_groups (setup : Setup) : Setup :=
  {| install_requires := sorted (list_to_set (install_requires setup));
     extras_require :=
       (fun item : string * list string =>
          (fst item, sorted (list_to_set (snd item))))
       <$> extras_require setup;
     python_requires := python_requires setup;
     classifiers := classifiers setup |}.

(** The groups of two `setup.json` have the same names in the same order,
    and [R] relates their lists. *)
Definition groups_related (R : list string -> list string -> Prop)
    (setup setup' : Setup) : Prop :=
  R (install_requires setup) (install_requires setup')
  /\ Forall2
       (fun item item' : string * list string =>
          fst item = fst item' /\ R (snd item) (snd item'))
       (extras_require setup) (extras_require setup').

(** What `unrestrict` writes in the place of [r] when the built-in list is
    in force. *)
Definition stripped (r : string) : string :=
  if bool_decide (r ∈ DEFAULT_EXCLUDE_LIST) || Str.contains ";" r
     || negb (Str.contains "==" r)
  then r
  else package_of r.

Definition strip_groups (setup : Setup) : Setup :=
  {| install_requires := stripped <$> install_requires setup;
     extras_require :=
       (fun item : string * list string => (fst item, stripped <$> snd item))
       <$> extras_require setup;
     python_requires := python_requires setup;
     classifiers := classifiers setup |}.

(** The `setup.json` with another install list. *)
Definition with_install (setup : Setup) (requirements : list string) : Setup :=
  {| install_requires := requirements;
     extras_require := extras_require setup;
     python_requires := python_requires setup;
     classifiers := classifiers setup |}.

(** ** Statements about the generated files *)

Section GeneratedFiles.
Context `{PkgResources}.

(** [==] on requirements is an equivalence. *)
Definition eqb_equivalence : Prop :=
  (forall x : Requirement, req_eqb x x = true)
  /\ (forall x y : Requirement, req_eqb x y = true -> req_eqb y x = true)
  /\ (forall x y z : Requirement,
        req_eqb x y = true -> req_eqb y z = true -> req_eqb x z = true).

(** Parsing [text] gives a requirement that is [==] to [r]. *)
Definition parses_back (text : string) (r : Requirement) : Prop :=
  exists r' : Requirement, parse text = Ok r' /\ req_eqb r r' = true.

(** No two requirements of the list are [==]. *)
Fixpoint distinct_requirements (ts : list Requirement) : Prop :=
  match ts with
  | [] => True
  | t :: rest =>
      Forall (fun u => req_eqb t u = false) rest /\ distinct_requirements rest
  end.

(** The translations of the requirements that are not passed over, in the
    order of the requirements. *)
Fixpoint conda_translations (install_requirements : list Requirement)
  : result (list Requirement) :=
  match install_requirements with
  | [] => Ok []
  | req :: rest =>
      if conda_ignored req
      then conda_translations rest
      else
        translated ← _setuptools_to_conda req;
        others ← conda_translations rest;
        Ok (translated :: others)
  end.

End GeneratedFiles.

Section GeneratedLines.
Context `{PkgResources}.

(** The text of [r] can stand on a line of its own: it is not empty, has no
    line end in it, and parses back to [r] with and without a line end
    after it. *)
Definition round_trips_as_line (r : Requirement) : Prop :=
  req_str r <> EmptyString
  /\ Str.contains newline (req_str r) = false
  /\ parses_back (req_str r) r
  /\ parses_back (req_str r ++ newline) r.

End GeneratedLines.

(** ** Sample files for the conda and documentation commands *)

(** The entries of a parse table for the text `name op ver`, alone and
    with a line end after it. *)
Definition table_lines (name op ver : string)
  : list (string * ParsedRequirement) :=
  [(name ++ op ++ ver, clause name op ver);
   (name ++ op ++ ver ++ newline, clause name op ver)].

Definition conda_table : list (string * ParsedRequirement) :=
  (table_lines "six" "==" "1.12.0"
   ++ table_lines "pyblake2" "==" "1.1.2"
   ++ table_lines "graphviz" "==" "0.13"
   ++ table_lines "python-graphviz" "==" "0.13"
   ++ table_lines "psycopg2-binary" "==" "2.8.4"
   ++ table_lines "psycopg2" "==" "2.8.4"
   ++ table_lines "reentry" "==" "1.3.1"
   ++ table_lines "sphinx" "==" "1.8.5"
   ++ table_lines "python" "~=" "3.7"
   ++ table_lines "python" ">=" "3.5")%list.

Definition conda_resources : PkgResources := table_resources conda_table.

Definition conda_setup : Setup :=
  {| install_requires :=
       ["six==1.12.0"; "pyblake2==1.1.2"; "graphviz==0.13";
        "psycopg2-binary==2.8.4"; "reentry==1.3.1"];
     extras_require :=
       [("testing", []); ("docs", ["sphinx==1.8.5"; "six==1.12.0"]);
        ("rest", []); ("atomic_tools", [])];
     python_requires := ">=3.5";
     classifiers := ["Programming Language :: Python :: 3.7"] |}.

(** The dependencies that `generate-environment-yml` writes for
    [conda_setup]. *)
Definition conda_dependencies : list string :=
  ["python~=3.7"; "six==1.12.0"; "python-graphviz==0.13"; "psycopg2==2.8.4";
   "reentry==1.3.1"].

(** * Properties *)

(** ** Strings *)

Section StringFacts.

Lemma prefix_trans (a b c : string) :
  String.prefix a b = true -> String.prefix b c = true ->
  String.prefix a c = true.
Proof.
  revert b c. induction a as [|x a IH]; intros b c Hab Hbc; [by destruct c|].
  destruct b as [|y b]; [done|]. destruct c as [|z c]; [done|].
  simpl in *.
  destruct (ascii_dec x y) as [->|]; [|done].
  destruct (ascii_dec y z) as [->|]; [|done].
  eauto.
Qed.

Lemma prefix_cons (c : ascii) (a b : string) :
  String.prefix (String c a) (String c b) = String.prefix a b.
Proof. simpl. by destruct (ascii_dec c c). Qed.

Lemma split_from_nonempty (sep : string) (skip : nat) (s : string) :
  Str.split_from sep skip s <> [].
Proof.
  revert skip. induction s as [|c s IH]; intros skip; [done|].
  cbn [Str.split_from]. destruct skip; [|apply IH].
  destruct (String.prefix sep (String c s)); [done|].
  by destruct (Str.split_from sep 0 s).
Qed.

(** The first piece of a split is the text up to the first separator. *)
Lemma first_piece_prefix (sep s : string) :
  String.prefix (hd EmptyString (Str.split sep s)) s = true.
Proof.
  unfold Str.split. induction s as [|c s IH]; [done|].
  cbn [Str.split_from].
  destruct (String.prefix sep (String c s)); [done|].
  destruct (Str.split_from sep 0 s) as [|piece rest]; simpl in *.
  - by destruct (ascii_dec c c).
  - by destruct (ascii_dec c c).
Qed.

Lemma first_piece_no_separator (sep s : string) :
  sep <> EmptyString ->
  Str.contains sep (hd EmptyString (Str.split sep s)) = false.
Proof.
  intros Hsep. unfold Str.split.
  induction s as [|c s IH].
  - simpl. by destruct sep.
  - cbn [Str.split_from].
    destruct (String.prefix sep (String c s)) eqn:Hpre.
    + simpl. by destruct sep.
    + pose proof (first_piece_prefix sep s) as Hfirst.
      pose proof (split_from_nonempty sep 0 s) as Hne.
      unfold Str.split in Hfirst.
      destruct (Str.split_from sep 0 s) as [|piece rest]; [done|].
      cbn [hd] in *. cbn [Str.contains]. rewrite IH, orb_false_r.
      destruct (String.prefix sep (String c piece)) eqn:Hp; [|done].
      rewrite <- Hpre. symmetry.
      apply (prefix_trans _ (String c piece)); [done|].
      by rewrite prefix_cons.
Qed.

Lemma lower_char_equals (c : ascii) :
  Str.lower_char c = "="%char <-> c = "="%char.
Proof.
  destruct c as [[] [] [] [] [] [] [] []]; vm_compute; split; congruence.
Qed.

Lemma pin_dec_lower {A} (c : ascii) (x y : A) :
  (if ascii_dec "=" (Str.lower_char c) then x else y)
  = (if ascii_dec "=" c then x else y).
Proof.
  destruct (ascii_dec "=" (Str.lower_char c)) as [E|E],
    (ascii_dec "=" c) as [E'|E']; try done; exfalso.
  - apply E'. symmetry. by apply lower_char_equals.
  - apply E. symmetry. by apply lower_char_equals.
Qed.

Lemma prefix_pin_lower (s : string) :
  String.prefix "==" (Str.lower s) = String.prefix "==" s.
Proof.
  destruct s as [|c [|d s]]; cbn [Str.lower String.prefix];
    rewrite ?pin_dec_lower; [done..|].
  repeat destruct (ascii_dec _ _); try done. by destruct s.
Qed.

Lemma contains_pin_lower (s : string) :
  Str.contains "==" (Str.lower s) = Str.contains "==" s.
Proof.
  induction s as [|c s IH]; [done|].
  change (Str.lower (String c s)) with (String (Str.lower_char c) (Str.lower s)).
  cbn [Str.contains]. rewrite IH. f_equal.
  apply (prefix_pin_lower (String c s)).
Qed.

Lemma contains_pin_append (a b : string) :
  Str.contains "==" (a ++ "==" ++ b) = true.
Proof.
  induction a as [|c a IH]; [by destruct b|].
  change (String c a ++ "==" ++ b) with (String c (a ++ "==" ++ b)).
  cbn [Str.contains]. rewrite IH. apply orb_true_r.
Qed.

End StringFacts.

(** ** The order of [sorted] *)

Lemma leb_trans (a b c : string) :
  String.leb a b = true -> String.leb b c = true -> String.leb a c = true.
Proof.
  unfold String.leb. revert b c.
  induction a as [|x a IH]; intros [|y b] [|z c]; cbn [String.compare]; try done.
  unfold Ascii.compare.
  destruct (N.compare (N_of_ascii x) (N_of_ascii y)) eqn:E1; [| |done];
    (destruct (N.compare (N_of_ascii y) (N_of_ascii z)) eqn:E2; [| |done]).
  - apply N.compare_eq_iff in E1, E2.
    rewrite E1, <- E2, N.compare_refl. apply IH.
  - apply N.compare_eq_iff in E1. by rewrite E1, E2.
  - apply N.compare_eq_iff in E2. by rewrite <- E2, E1.
  - apply N.compare_lt_iff in E1, E2.
    assert (N.compare (N_of_ascii x) (N_of_ascii z) = Lt) as ->; [|done].
    apply N.compare_lt_iff. by etrans.
Qed.

Global Instance le_total : Total Str.le.
Proof. intros a b. apply String.leb_total. Qed.

Global Instance le_transitive : Transitive Str.le.
Proof. intros a b c. apply leb_trans. Qed.

Global Instance le_antisymm : AntiSymm (=) Str.le.
Proof. intros a b. apply String.leb_antisym. Qed.

(** ** Loops *)

Lemma for_each_Forall2 {A B} (body : A -> result B) (xs : list A) (ys : list B) :
  for_each body xs = Ok ys -> Forall2 (fun x y => body x = Ok y) xs ys.
Proof.
  revert ys. induction xs as [|x xs IH]; intros ys; cbn [for_each].
  - intros [= <-]. constructor.
  - destruct (body x) as [y|] eqn:Hy; [|done]. cbn.
    destruct (for_each body xs) as [ys'|]; [|done]. cbn.
    intros [= <-]. constructor; eauto.
Qed.

(** ** `unrestrict` *)

Lemma default_exclude_no_pin (r : string) :
  r ∈ DEFAULT_EXCLUDE_LIST -> Str.contains "==" r = false.
Proof.
  unfold DEFAULT_EXCLUDE_LIST. rewrite !elem_of_cons, elem_of_nil.
  intros H. repeat (destruct H as [->|H]; [reflexivity|]). done.
Qed.

Lemma rebind_exclude_Some (exclude l : list string) :
  rebind_exclude exclude = Some l -> exclude = [] /\ l = DEFAULT_EXCLUDE_LIST.
Proof. destruct exclude; cbn; [by intros [= <-]|done]. Qed.

(** The turn of the loop for a list of names, none of which has a `==`. *)
Lemma unrestrict_requirement_names (names exclude_set : list string)
    (r r' : string) :
  Forall (fun name => Str.contains "==" name = false) names ->
  unrestrict_requirement (Some names) r = Ok r' ->
  pin_removed exclude_set r r'.
Proof.
  unfold unrestrict_requirement, pin_removed. cbn [py_in mbind result_bind].
  intros Hnames Hrun _ Hmarker. rewrite Hmarker, orb_false_r in Hrun.
  destruct (bool_decide (r ∈ names)) eqn:Hin.
  - apply bool_decide_eq_true in Hin.
    rewrite Forall_forall in Hnames. apply Hnames in Hin.
    cbn in Hrun. injection Hrun as <-. split; [done|congruence].
  - cbn [orb] in Hrun.
    destruct (Str.contains "==" r) eqn:Hpin; cbn in Hrun; injection Hrun as <-.
    + split; [|done]. by apply first_piece_no_separator.
    + split; [done|congruence].
Qed.

Lemma unrestrict_requirement_default (exclude_set : list string) (r r' : string) :
  unrestrict_requirement (Some DEFAULT_EXCLUDE_LIST) r = Ok r' ->
  pin_removed exclude_set r r'.
Proof.
  apply unrestrict_requirement_names, Forall_forall.
  intros name. apply default_exclude_no_pin.
Qed.

Lemma unrestrict_group_default (exclude_set : list string)
    (exclude : list string) (reqs reqs' : list string) :
  unrestrict_group (rebind_exclude exclude) reqs = Ok reqs' ->
  Forall2 (pin_removed exclude_set) reqs reqs'.
Proof.
  intros Hrun. apply for_each_Forall2 in Hrun.
  eapply Forall2_impl; [exact Hrun|]. intros r r' Hr. cbn in Hr.
  destruct (rebind_exclude exclude) as [l|] eqn:Hex; [|done].
  apply rebind_exclude_Some in Hex as [_ ->].
  by apply unrestrict_requirement_default.
Qed.

(** For a caller's exclude list that is not empty, the first requirement
    met stops the command. *)
Lemma unrestrict_exclude_raises (exclude : list string) (setup : Setup) :
  exclude <> [] -> install_requires setup <> [] ->
  unrestrict_requirements exclude setup
  = Raise TypeError "argument of type 'NoneType' is not iterable".
Proof.
  intros Hex Hreq. unfold unrestrict_requirements.
  destruct exclude as [|name exclude]; [done|].
  destruct (install_requires setup) as [|r reqs]; [done|]. reflexivity.
Qed.

(** C1. The names given with `--exclude` are meant to be added to the
    built-in list, but the value bound to [exclude] is the result of
    [extend], which is [None]: with the caller's list ["six"] and the
    requirement `six==1.12.0` the command stops with a [TypeError] and
    nothing is written. *)
Theorem unrestrict_caller_exclude_lost :
  fst (list_extend ["six"] DEFAULT_EXCLUDE_LIST) = ("six" :: DEFAULT_EXCLUDE_LIST)
  /\ rebind_exclude ["six"] = None
  /\ unrestrict_requirements ["six"] (manifest ["six==1.12.0"])
     = Raise TypeError "argument of type 'NoneType' is not iterable".
Proof. repeat split. Qed.

(** C2. A pinned requirement whose package is in the exclude list is not
    kept: the test [requirement in exclude] compares the whole requirement
    with the names. With the built-in list in force, `numpy==1.17.4` is cut
    down to `numpy`; with the caller's list ["six"] the command stops; with
    no caller's list `six==1.12.0` becomes `six`. *)
Theorem unrestrict_excluded_pin_stripped :
  "numpy" ∈ DEFAULT_EXCLUDE_LIST
  /\ unrestrict_requirements [] (manifest ["numpy==1.17.4"])
     = Ok (manifest ["numpy"])
  /\ unrestrict_requirements ["six"] (manifest ["six==1.12.0"])
     = Raise TypeError "argument of type 'NoneType' is not iterable"
  /\ unrestrict_requirements [] (manifest ["six==1.12.0"])
     = Ok (manifest ["six"]).
Proof. split; [|by vm_compute]. unfold DEFAULT_EXCLUDE_LIST. set_solver. Qed.

(** C7. In what `unrestrict` writes, a requirement whose package is outside
    the exclude list and that had no environment marker has no `==` left,
    and when it was pinned it is cut down to its package; this holds in the
    install list and in each group of extras, whose names are kept. *)
Theorem unrestrict_removes_pins (exclude : list string) (setup clone : Setup) :
  unrestrict_requirements exclude setup = Ok clone ->
  Forall2 (pin_removed (exclude ++ DEFAULT_EXCLUDE_LIST))
    (install_requires setup) (install_requires clone)
  /\ Forall2
       (fun item item' : string * list string =>
          fst item = fst item'
          /\ Forall2 (pin_removed (exclude ++ DEFAULT_EXCLUDE_LIST))
               (snd item) (snd item'))
       (extras_require setup) (extras_require clone).
Proof.
  unfold unrestrict_requirements.
  destruct (unrestrict_group _ (install_requires setup)) as [install|] eqn:Hi;
    [|done]. cbn.
  destruct (for_each _ (extras_require setup)) as [extras|] eqn:He; [|done].
  cbn. intros [= <-]. cbn. split.
  - by eapply unrestrict_group_default.
  - apply for_each_Forall2 in He.
    eapply Forall2_impl; [exact He|]. intros [extra reqs] [extra' reqs'] Hitem.
    cbn [fst snd] in *.
    destruct (unrestrict_group (rebind_exclude exclude) reqs) as [out|] eqn:Hg;
      [|done].
    cbn in Hitem. injection Hitem as <- <-. split; [done|].
    by eapply unrestrict_group_default.
Qed.

(** ** `update` *)

(** The snapshot is always read to the end, and no package that is read
    has a `==` in it. *)
Lemma read_package_versions_total (lines : list string) :
  exists pvs : list (string * string),
    read_package_versions lines = Ok pvs /\ Forall no_pin_in_package pvs.
Proof.
  induction lines as [|line lines (pvs & IH & Hpvs)]; [by exists []|].
  cbn [read_package_versions]. rewrite IH.
  pose proof (first_piece_no_separator "==" (Str.strip line)) as Hfirst.
  destruct (Str.split "==" (Str.strip line)) as [|p [|v [|w rest]]];
    cbn; eauto.
  exists ((p, v) :: pvs). split; [done|]. constructor; [|done].
  by apply Hfirst.
Qed.

Lemma read_package_versions_app (before after : list string)
    (pvs1 pvs2 : list (string * string)) :
  read_package_versions before = Ok pvs1 ->
  read_package_versions after = Ok pvs2 ->
  read_package_versions (before ++ after) = Ok (pvs1 ++ pvs2)%list.
Proof.
  revert pvs1. induction before as [|line before IH]; intros pvs1.
  - intros [= <-] Hafter. exact Hafter.
  - cbn [read_package_versions app].
    destruct (try_except_ValueError _ _) as [step|]; [|done]. cbn.
    destruct (read_package_versions before) as [others|] eqn:Ho; [|done].
    cbn. intros [= <-] Hafter. rewrite (IH others eq_refl Hafter). cbn.
    by rewrite <- app_assoc.
Qed.

Lemma updated_requirement_pinned_by (pvs : list (string * string)) (r : string) :
  pinned_by pvs r (updated_requirement pvs r).
Proof.
  induction pvs as [|[p v] pvs IH]; cbn [updated_requirement].
  - right. split; [|done]. intros pv Hpv. by apply elem_of_nil in Hpv.
  - destruct (String.eqb (Str.lower r) (Str.lower p)) eqn:Heq.
    + apply String.eqb_eq in Heq. left. exists 0, p, v.
      repeat split; [done|]. intros j pv Hj. lia.
    + apply String.eqb_neq in Heq.
      destruct IH as [(i & p' & v' & Hi & Hlow & Hfirst & ->)|[Hnone ->]].
      * left. exists (S i), p', v'. repeat split; [done..|].
        intros [|j] pv Hj Hpv; cbn in Hpv.
        -- by injection Hpv as <-.
        -- apply (Hfirst j); [lia|done].
      * right. split; [|done]. intros pv [->|Hpv]%elem_of_cons; auto.
Qed.

Lemma pinned_by_updated_requirement (pvs : list (string * string)) (r r' : string) :
  pinned_by pvs r r' -> r' = updated_requirement pvs r.
Proof.
  induction pvs as [|[p v] pvs IH]; cbn [updated_requirement].
  - intros [(i & p' & v' & Hi & _)|[_ ->]]; [|done].
    by rewrite lookup_nil in Hi.
  - intros Hpin.
    destruct (String.eqb (Str.lower r) (Str.lower p)) eqn:Heq.
    + apply String.eqb_eq in Heq.
      destruct Hpin as [(i & p' & v' & Hi & Hlow & Hfirst & ->)|[Hnone ->]].
      * destruct i as [|i]; [by injection Hi as <- <-|].
        by destruct (Hfirst 0 (p, v)); [lia|..].
      * destruct (Hnone (p, v)); [left|done].
    + apply String.eqb_neq in Heq. apply IH.
      destruct Hpin as [(i & p' & v' & Hi & Hlow & Hfirst & ->)|[Hnone ->]].
      * destruct i as [|i]; [by injection Hi as <- <-|].
        left. exists i, p', v'. repeat split; [done..|].
        intros j pv Hj Hpv. apply (Hfirst (S j)); [lia|done].
      * right. split; [|done]. intros pv Hpv. apply Hnone. by right.
Qed.

Lemma elem_of_sorted (requirements : gset string) (r : string) :
  r ∈ sorted requirements <-> r ∈ requirements.
Proof. unfold sorted. by rewrite merge_sort_Permutation, elem_of_elements. Qed.

Lemma elem_of_update_group (pvs : list (string * string))
    (reqs : list string) (r' : string) :
  r' ∈ update_group pvs reqs
  <-> exists r : string, r ∈ reqs /\ r' = updated_requirement pvs r.
Proof.
  unfold update_group.
  rewrite elem_of_sorted, elem_of_list_to_set, list_elem_of_fmap.
  split; intros (r & H1 & H2); eauto.
Qed.

Lemma update_group_pinned (pvs : list (string * string)) (reqs : list string) :
  group_pinned pvs reqs (update_group pvs reqs).
Proof.
  intros r'. rewrite elem_of_update_group. split; intros (r & Hr & Hpin).
  - exists r. split; [done|]. subst r'. apply updated_requirement_pinned_by.
  - exists r. split; [done|]. by apply pinned_by_updated_requirement.
Qed.

(** A requirement with a `==` in it answers to no package of the snapshot. *)
Lemma updated_requirement_pinned (pvs : list (string * string)) (r : string) :
  Forall no_pin_in_package pvs ->
  Str.contains "==" r = true ->
  updated_requirement pvs r = r.
Proof.
  intros Hpvs Hr. induction Hpvs as [|[p v] pvs Hp _ IH]; [done|].
  cbn [updated_requirement].
  destruct (String.eqb (Str.lower r) (Str.lower p)) eqn:Heq; [|done].
  apply String.eqb_eq in Heq. unfold no_pin_in_package in Hp. cbn in Hp.
  rewrite <- contains_pin_lower, Heq, contains_pin_lower in Hr. congruence.
Qed.

Lemma updated_requirement_cases (pvs : list (string * string)) (r : string) :
  updated_requirement pvs r = r
  \/ Str.contains "==" (updated_requirement pvs r) = true.
Proof.
  induction pvs as [|[p v] pvs IH]; cbn [updated_requirement]; [by left|].
  destruct (String.eqb (Str.lower r) (Str.lower p)); [|done].
  right. apply contains_pin_append.
Qed.

Lemma updated_requirement_idemp (pvs : list (string * string)) (r : string) :
  Forall no_pin_in_package pvs ->
  updated_requirement pvs (updated_requirement pvs r) = updated_requirement pvs r.
Proof.
  intros Hpvs. destruct (updated_requirement_cases pvs r) as [Hsame|Hpin].
  - by rewrite !Hsame.
  - by apply updated_requirement_pinned.
Qed.

Lemma update_group_idemp (pvs : list (string * string)) (reqs : list string) :
  Forall no_pin_in_package pvs ->
  update_group pvs (update_group pvs reqs) = update_group pvs reqs.
Proof.
  intros Hpvs.
  assert (updated_requirement pvs <$> update_group pvs reqs
          = update_group pvs reqs) as Hfix.
  { rewrite <- (list_fmap_id (update_group pvs reqs)) at 2.
    apply Forall_fmap_ext_1, Forall_forall.
    intros r' (r & _ & ->)%elem_of_update_group.
    by apply updated_requirement_idemp. }
  unfold update_group at 1. rewrite Hfix. unfold update_group, sorted.
  f_equal. f_equal. apply set_eq. intros r'.
  by rewrite elem_of_list_to_set, merge_sort_Permutation, elem_of_elements.
Qed.

(** The list of a group does not depend on the order of its requirements. *)
Lemma update_group_perm (pvs : list (string * string)) (reqs1 reqs2 : list string) :
  reqs1 ≡ₚ reqs2 -> update_group pvs reqs1 = update_group pvs reqs2.
Proof. intros Hperm. unfold update_group. by rewrite Hperm. Qed.

Lemma update_group_sorted (pvs : list (string * string)) (reqs : list string) :
  StronglySorted Str.le (update_group pvs reqs).
Proof. unfold update_group, sorted. apply StronglySorted_merge_sort; apply _. Qed.

Lemma update_requirements_total (lines : list string) (setup : Setup) :
  exists pvs : list (string * string),
    read_package_versions lines = Ok pvs
    /\ Forall no_pin_in_package pvs
    /\ update_requirements lines setup
       = Ok {| install_requires := update_group pvs (install_requires setup);
               extras_require :=
                 (fun item : string * list string =>
                    (fst item, update_group pvs (snd item)))
                 <$> extras_require setup;
               python_requires := python_requires setup;
               classifiers := classifiers setup |}.
Proof.
  destruct (read_package_versions_total lines) as (pvs & Hread & Hpvs).
  exists pvs. repeat split; [done..|].
  unfold update_requirements. by rewrite Hread.
Qed.

Lemma malformed_line_no_pin (line : string) (rest : list string) :
  List.length (Str.split "==" (Str.strip line)) <> 2 ->
  read_package_versions (line :: rest) = read_package_versions rest.
Proof.
  intros Hlen. cbn [read_package_versions].
  destruct (Str.split "==" (Str.strip line)) as [|p [|v [|w parts]]];
    try done; cbn; by destruct (read_package_versions rest).
Qed.

(** C3, as the command has it. `update` reads the snapshot to the end and
    then, in the install list and in each group of extras, puts in the
    place of a requirement the pin `package==version` (package in lower
    case) of the first snapshot entry whose package is the whole text of
    the requirement up to case, and keeps a requirement that no entry
    answers to. So `six` and `SIX` become `six==1.16.0`, and the pinned
    `six==1.12.0` stays as it is. *)
Theorem update_pins_whole_text_matches (lines : list string) (setup : Setup) :
  (exists (pvs : list (string * string)) (out : Setup),
      read_package_versions lines = Ok pvs
      /\ update_requirements lines setup = Ok out
      /\ group_pinned pvs (install_requires setup) (install_requires out)
      /\ Forall2
           (fun item item' : string * list string =>
              fst item = fst item' /\ group_pinned pvs (snd item) (snd item'))
           (extras_require setup) (extras_require out))
  /\ update_requirements ["six==1.16.0" ++ newline] (manifest ["six"])
     = Ok (manifest ["six==1.16.0"])
  /\ update_requirements ["Six==1.16.0" ++ newline] (manifest ["SIX"])
     = Ok (manifest ["six==1.16.0"])
  /\ update_requirements ["six==1.16.0" ++ newline] (manifest ["six==1.12.0"])
     = Ok (manifest ["six==1.12.0"]).
Proof.
  split; [|by vm_compute].
  destruct (update_requirements_total lines setup) as (pvs & Hread & _ & Hrun).
  eexists pvs, _. split; [done|]. split; [exact Hrun|]. cbn. split.
  - apply update_group_pinned.
  - apply Forall2_fmap_r, Forall_Forall2_diag, Forall_forall.
    intros [extra reqs] _. split; [done|]. apply update_group_pinned.
Qed.

(** C3, against the claim as stated. The entry `six==1.12.0` with the
    snapshot line `six==1.16.0` is not pinned anew: the requirement is
    written back as it was. *)
Lemma update_leaves_pinned_requirement :
  update_requirements ["six==1.16.0" ++ newline] (manifest ["six==1.12.0"])
  = Ok (manifest ["six==1.12.0"])
  /\ update_requirements ["six==1.16.0" ++ newline] (manifest ["six==1.12.0"])
     <> Ok (manifest ["six==1.16.0"]).
Proof. split; [by vm_compute|]. vm_compute. discriminate. Qed.

(** C4. `update` always ends, and applied again with the same snapshot to
    what it has written it writes the same `setup.json`. *)
Theorem update_idempotent (lines : list string) (setup : Setup) :
  exists out : Setup,
    update_requirements lines setup = Ok out
    /\ update_requirements lines out = Ok out.
Proof.
  destruct (update_requirements_total lines setup) as (pvs & Hread & Hpvs & Hrun).
  eexists. split; [exact Hrun|].
  unfold update_requirements. rewrite Hread. cbn. f_equal. f_equal.
  - by apply update_group_idemp.
  - rewrite <- list_fmap_compose. apply Forall_fmap_ext_1, Forall_forall.
    intros [extra reqs] _. cbn. by rewrite update_group_idemp.
Qed.

(** C9. In what `update` writes, the install list and the list of each
    group of extras are in ascending order of their strings. *)
Theorem update_groups_sorted (lines : list string) (setup : Setup) :
  exists out : Setup,
    update_requirements lines setup = Ok out
    /\ StronglySorted Str.le (install_requires out)
    /\ Forall (fun item : string * list string => StronglySorted Str.le (snd item))
         (extras_require out).
Proof.
  destruct (update_requirements_total lines setup) as (pvs & _ & _ & Hrun).
  eexists. split; [exact Hrun|]. cbn. split.
  - apply update_group_sorted.
  - apply Forall_fmap, Forall_forall. intros [extra reqs] _. cbn.
    apply update_group_sorted.
Qed.

(** C10. A line of the snapshot that does not split at `==` into exactly
    two parts adds no package version: `update` ends without error and
    writes what it writes for the snapshot without that line. *)
Theorem update_skips_malformed_line (before after : list string)
    (line : string) (setup : Setup) :
  List.length (Str.split "==" (Str.strip line)) <> 2 ->
  read_package_versions (before ++ line :: after)
  = read_package_versions (before ++ after)
  /\ update_requirements (before ++ line :: after) setup
     = update_requirements (before ++ after) setup
  /\ exists out : Setup,
       update_requirements (before ++ line :: after) setup = Ok out.
Proof.
  intros Hlen.
  assert (read_package_versions (before ++ line :: after)
          = read_package_versions (before ++ after)) as Hread.
  { destruct (read_package_versions_total before) as (pvs1 & H1 & _).
    destruct (read_package_versions_total after) as (pvs2 & H2 & _).
    rewrite (read_package_versions_app before after pvs1 pvs2 H1 H2).
    apply read_package_versions_app; [done|].
    by rewrite malformed_line_no_pin. }
  split; [done|]. split.
  - unfold update_requirements. by rewrite Hread.
  - destruct (update_requirements_total (before ++ line :: after) setup)
      as (pvs & _ & _ & Hrun). eauto.
Qed.

(** ** The consistency checks *)

Section ValidationFacts.
Context `{PkgResources}.

(** What is left of the conda dependencies is never reported with a
    message of the command: the listing of the requirements fails. *)
Lemma check_leftover_cases (pool : list Requirement) :
  (pool = [] /\ check_leftover pool = Ok tt)
  \/ (pool <> []
      /\ check_leftover pool
         = Raise TypeError
             "sequence item 0: expected str instance, Requirement found").
Proof. destruct pool as [|r pool]; [left|right]; by split. Qed.

(** A requirement of `setup.json` without a match among the conda
    dependencies is reported by its text. *)
Lemma match_requirements_missing (req translated : Requirement)
    (rest pool : list Requirement) :
  existsb (fun ignore => re_match ignore (req_str req)) CONDA_IGNORE = false ->
  _setuptools_to_conda req = Ok translated ->
  set_mem translated pool = false ->
  match_requirements (req :: rest) pool
  = Raise ClickException
      ("Requirement '" ++ req_str req ++ "' not specified in 'environment.yml'.").
Proof.
  intros Hignore Htrans Hmem. cbn [match_requirements].
  rewrite Hignore, Htrans. cbn. unfold set_remove. by rewrite Hmem.
Qed.

Lemma set_mem_app (r : Requirement) (s1 s2 : list Requirement) :
  set_mem r (s1 ++ s2) = set_mem r s1 || set_mem r s2.
Proof. apply existsb_app. Qed.

Section Laws.
Hypothesis req_eqb_refl : forall x : Requirement, req_eqb x x = true.
Hypothesis req_eqb_trans : forall x y z : Requirement,
  req_eqb x y = true -> req_eqb y z = true -> req_eqb x z = true.

Lemma set_mem_add (r x : Requirement) (s : list Requirement) :
  set_mem r (set_add x s) = set_mem r s || req_eqb r x.
Proof.
  unfold set_add. destruct (set_mem x s) eqn:Hx.
  - destruct (req_eqb r x) eqn:Hrx; [|by rewrite orb_false_r].
    rewrite orb_true_r.
    apply existsb_exists in Hx as (y & Hy & Hxy).
    apply existsb_exists. exists y. eauto.
  - rewrite set_mem_app. cbn. by rewrite orb_false_r.
Qed.

Lemma set_mem_update (r : Requirement) (s items : list Requirement) :
  set_mem r (set_update s items) = set_mem r s || set_mem r items.
Proof.
  unfold set_update. revert s.
  induction items as [|x items IH]; intros s; cbn [fold_left].
  - cbn. by rewrite orb_false_r.
  - rewrite IH, set_mem_add. cbn. by rewrite orb_assoc.
Qed.

Lemma set_mem_of_list (r : Requirement) (items : list Requirement) :
  set_mem r (set_of_list items) = set_mem r items.
Proof. unfold set_of_list. by rewrite set_mem_update. Qed.

Lemma set_eqb_same (s1 s2 : list Requirement) :
  set_eqb s1 s2 = true <-> same_requirements s1 s2.
Proof.
  unfold set_eqb, same_requirements.
  rewrite andb_true_iff, !forallb_forall. split.
  - intros [H12 H21] r. apply eq_true_iff_eq.
    split; intros (x & Hx & Hrx)%existsb_exists.
    + apply H12, existsb_exists in Hx as (y & Hy & Hxy).
      apply existsb_exists. exists y. eauto.
    + apply H21, existsb_exists in Hx as (y & Hy & Hxy).
      apply existsb_exists. exists y. eauto.
  - intros Hsame. split; intros x Hx.
    + rewrite <- Hsame. apply existsb_exists. eauto.
    + rewrite Hsame. apply existsb_exists. eauto.
Qed.

Lemma update_from_extras_union (setup_cfg : Setup) (keys : list string)
    (groups : list (list Requirement)) (s : list Requirement) :
  Forall2 (group_parsed setup_cfg) keys groups ->
  exists combined : list Requirement,
    update_from_extras setup_cfg keys s = Ok combined
    /\ same_requirements combined (s ++ concat groups).
Proof.
  intros Hgroups. revert s.
  induction Hgroups as [|key group keys groups (texts & Hget & Hparse) _ IH];
    intros s.
  - exists s. split; [done|]. intros r. cbn. by rewrite app_nil_r.
  - cbn [update_from_extras]. rewrite Hget. cbn. rewrite Hparse. cbn.
    destruct (IH (set_update s (set_of_list group))) as (combined & -> & Hc).
    exists combined. split; [done|]. intros r. rewrite Hc. cbn [concat].
    rewrite !set_mem_app, set_mem_update, set_mem_of_list.
    by rewrite orb_assoc.
Qed.

(** C8, as the command has it. With the install list, the four groups
    of extras and the lines of the documentation list parsed, the
    check succeeds exactly when the documentation list and the install
    list with the four groups have the same requirements; when it does
    not succeed it fails on the bare [assert], whose error has no
    message. *)
Theorem validate_rtd_reqs_set_equality (setup_cfg : Setup)
    (rtd_lines : list string) (install : list Requirement)
    (groups : list (list Requirement)) (flat : list Requirement) :
  for_each parse (install_requires setup_cfg) = Ok install ->
  Forall2 (group_parsed setup_cfg)
    ["testing"; "docs"; "rest"; "atomic_tools"] groups ->
  for_each parse rtd_lines = Ok flat ->
  (validate_rtd_reqs setup_cfg rtd_lines = Ok tt
   <-> same_requirements flat (install ++ concat groups))
  /\ (validate_rtd_reqs setup_cfg rtd_lines = Ok tt
      \/ validate_rtd_reqs setup_cfg rtd_lines
         = Raise AssertionError EmptyString).
Proof.
  intros Hinstall Hgroups Hflat.
  destruct (update_from_extras_union setup_cfg _ groups
              (set_of_list install) Hgroups) as (combined & Hrun & Hc).
  unfold validate_rtd_reqs, combined_requirements.
  rewrite Hinstall. cbn [mbind result_bind].
  rewrite Hrun. cbn [mbind result_bind].
  rewrite Hflat. cbn [mbind result_bind].
  destruct (set_eqb (set_of_list flat) combined) eqn:Heq.
  - split; [|by left]. split; [intros _|done].
    apply set_eqb_same in Heq. intros r.
    rewrite <- set_mem_of_list, Heq, Hc, !set_mem_app.
    by rewrite set_mem_of_list.
  - split; [|by right]. split; [done|]. intros Hsame.
    assert (set_eqb (set_of_list flat) combined = true) as Htrue;
      [|congruence].
    apply set_eqb_same. intros r.
    rewrite set_mem_of_list, Hsame, Hc, !set_mem_app.
    by rewrite set_mem_of_list.
Qed.

End Laws.
End ValidationFacts.

(** ** Requirements given by a table *)

Lemma specifier_eqb_eq (s1 s2 : Specifier) :
  specifier_eqb s1 s2 = true <-> s1 = s2.
Proof.
  destruct s1 as [o1 v1], s2 as [o2 v2]. unfold specifier_eqb. cbn.
  rewrite andb_true_iff, !String.eqb_eq. split; [by intros [-> ->]|].
  by intros [= -> ->].
Qed.

Lemma specifiers_included (l1 l2 : list Specifier) :
  forallb (fun s => existsb (specifier_eqb s) l2) l1 = true
  <-> forall s : Specifier, In s l1 -> In s l2.
Proof.
  rewrite forallb_forall. split; intros Hincl s Hs.
  - apply Hincl, existsb_exists in Hs as (t & Ht & ->%specifier_eqb_eq). done.
  - apply existsb_exists. exists s. split; [auto|]. by apply specifier_eqb_eq.
Qed.

Lemma parsed_eqb_refl (x : ParsedRequirement) : parsed_eqb x x = true.
Proof.
  unfold parsed_eqb. rewrite String.eqb_refl. cbn.
  apply andb_true_iff. split; by apply specifiers_included.
Qed.

Lemma parsed_eqb_trans (x y z : ParsedRequirement) :
  parsed_eqb x y = true -> parsed_eqb y z = true -> parsed_eqb x z = true.
Proof.
  unfold parsed_eqb. rewrite !andb_true_iff, !String.eqb_eq, !specifiers_included.
  intros [[-> Hxy] Hyx] [[-> Hyz] Hzy]. repeat split; auto.
Qed.

(** ** The checks on the sample files *)

(** C5. The versions of Python are compared as strings, so `3.10` counts
    as less than `3.7`: with `python_requires` `>=3.7`, the classifier of
    3.10 present and `python~=3.10` in `environment.yml`, the check fails
    as not consistent. It fails for `python~=3.6` as well, for want of the
    classifier, or on the versions when the classifier is there, and it
    passes for `python~=3.7`. *)
Theorem validate_rejects_python_310 :
  Str.geb "3.10" "3.7" = false
  /\ @validate_environment_yml sample_resources
       (sample_setup ["six==1.12.0"]) ["python~=3.10"; "six==1.12.0"]
     = Raise ClickException
         "Required Python version between 'setup.json' and 'environment.yml' not consistent."
  /\ @validate_environment_yml sample_resources
       (sample_setup ["six==1.12.0"]) ["python~=3.6"; "six==1.12.0"]
     = Raise ClickException
         "Trove classifier 'Programming Language :: Python :: 3.6' missing from 'setup.json'."
  /\ @check_python_specifier sample_resources
       ["Programming Language :: Python :: 3.6"]
       (clause "python" "~=" "3.6") (clause "python" ">=" "3.7")
     = Raise ClickException
         "Required Python version between 'setup.json' and 'environment.yml' not consistent."
  /\ @validate_environment_yml sample_resources
       (sample_setup ["six==1.12.0"]) ["python~=3.7"; "six==1.12.0"]
     = Ok tt.
Proof. repeat split; by vm_compute. Qed.

(** C6. A requirement that `environment.yml` lacks is reported by its text.
    A requirement that only `environment.yml` has is not reported with the
    message of the command: the requirements that are left are handed to
    [join] as they are, not as strings, and the command stops with a
    [TypeError]. *)
Theorem validate_extra_requirement_type_error :
  @validate_environment_yml sample_resources
    (sample_setup ["six==1.12.0"])
    ["python~=3.7"; "six==1.12.0"; "numpy==1.17.4"]
  = Raise TypeError "sequence item 0: expected str instance, Requirement found"
  /\ @validate_environment_yml sample_resources
       (sample_setup ["six==1.12.0"; "numpy==1.17.4"])
       ["python~=3.7"; "six==1.12.0"]
     = Raise ClickException
         "Requirement 'numpy==1.17.4' not specified in 'environment.yml'."
  /\ @validate_environment_yml sample_resources
       (sample_setup ["six==1.12.0"; "numpy==1.17.4"])
       ["python~=3.7"; "numpy==1.17.4"; "six==1.12.0"]
     = Ok tt.
Proof. repeat split; by vm_compute. Qed.

(** C8, against the claim as stated. With `numpy==1.17.4` in the install
    list and not in the documentation list, the check fails with an error
    whose message is empty: the requirement is not named. *)
Lemma validate_rtd_reqs_names_nothing :
  @validate_rtd_reqs sample_resources
    (sample_setup ["six==1.12.0"; "numpy==1.17.4"]) ["six==1.12.0"]
  = Raise AssertionError EmptyString
  /\ ~ (exists (cls : ExceptionClass) (msg : string),
          @validate_rtd_reqs sample_resources
            (sample_setup ["six==1.12.0"; "numpy==1.17.4"]) ["six==1.12.0"]
          = Raise cls msg
          /\ Str.contains "numpy" msg = true).
Proof.
  split; [by vm_compute|]. intros (cls & msg & Hrun & Hnamed).
  vm_compute in Hrun. injection Hrun as <- <-. discriminate.
Qed.

(** C8 on the sample files: the documentation list lacks `numpy==1.17.4`. *)
Lemma validate_rtd_reqs_set_equality_witness :
  (@validate_rtd_reqs sample_resources
     (sample_setup ["six==1.12.0"; "numpy==1.17.4"]) ["six==1.12.0"] = Ok tt
   <-> @same_requirements sample_resources
         [clause "six" "==" "1.12.0"]
         ([clause "six" "==" "1.12.0"; clause "numpy" "==" "1.17.4"]
          ++ concat [[]; []; []; []]))
  /\ (@validate_rtd_reqs sample_resources
        (sample_setup ["six==1.12.0"; "numpy==1.17.4"]) ["six==1.12.0"] = Ok tt
      \/ @validate_rtd_reqs sample_resources
           (sample_setup ["six==1.12.0"; "numpy==1.17.4"]) ["six==1.12.0"]
         = Raise AssertionError EmptyString).
Proof.
  apply (@validate_rtd_reqs_set_equality sample_resources
           parsed_eqb_refl parsed_eqb_trans).
  - reflexivity.
  - repeat constructor; exists []; split; reflexivity.
  - reflexivity.
Defined.

(** C7 on a `setup.json` with a pinned requirement, one with an environment
    marker, and a group of extras. *)
Lemma unrestrict_removes_pins_witness :
  Forall2 (pin_removed ([] ++ DEFAULT_EXCLUDE_LIST))
    ["six==1.12.0"; "pyblake2==1.1.2; python_version<'3.6'"] ["six"; "pyblake2==1.1.2; python_version<'3.6'"]
  /\ Forall2
       (fun item item' : string * list string =>
          fst item = fst item'
          /\ Forall2 (pin_removed ([] ++ DEFAULT_EXCLUDE_LIST))
               (snd item) (snd item'))
       [("docs", ["Sphinx==1.8.5"; "docutils"])]
       [("docs", ["Sphinx"; "docutils"])].
Proof.
  apply (unrestrict_removes_pins []
           {| install_requires :=
                ["six==1.12.0"; "pyblake2==1.1.2; python_version<'3.6'"];
              extras_require := [("docs", ["Sphinx==1.8.5"; "docutils"])];
              python_requires := ">=3.5";
              classifiers := [] |}
           {| install_requires :=
                ["six"; "pyblake2==1.1.2; python_version<'3.6'"];
              extras_require := [("docs", ["Sphinx"; "docutils"])];
              python_requires := ">=3.5";
              classifiers := [] |}).
  reflexivity.
Defined.

(** C10 on a snapshot whose second line is a bare name. *)
Lemma update_skips_malformed_line_witness :
  (read_package_versions (["six==1.16.0" ++ newline] ++ "six" :: ["numpy==1.17.4"])
   = read_package_versions (["six==1.16.0" ++ newline] ++ ["numpy==1.17.4"])
   /\ update_requirements
        (["six==1.16.0" ++ newline] ++ "six" :: ["numpy==1.17.4"])
        (manifest ["six"; "numpy"])
      = update_requirements
          (["six==1.16.0" ++ newline] ++ ["numpy==1.17.4"])
          (manifest ["six"; "numpy"])
   /\ exists out : Setup,
        update_requirements
          (["six==1.16.0" ++ newline] ++ "six" :: ["numpy==1.17.4"])
          (manifest ["six"; "numpy"]) = Ok out).
Proof.
  apply (update_skips_malformed_line ["six==1.16.0" ++ newline]
           ["numpy==1.17.4"] "six" (manifest ["six"; "numpy"])).
  vm_compute. lia.
Defined.

(** The three kinds of malformed line: a bare name, a blank line and a line
    with `==` twice. *)
Example malformed_lines :
  List.length (Str.split "==" (Str.strip ("six" ++ newline))) = 1
  /\ List.length (Str.split "==" (Str.strip newline)) = 1
  /\ List.length (Str.split "==" (Str.strip ("a==1==2" ++ newline))) = 3
  /\ read_package_versions
       ["six" ++ newline; newline; "a==1==2" ++ newline; "six==1.16.0" ++ newline]
     = Ok [("six", "1.16.0")].
Proof. repeat split; by vm_compute. Qed.

Example split_pin : Str.split "==" "six==1.12.0" = ["six"; "1.12.0"].
Proof. reflexivity. Qed.
Example split_bare : Str.split "==" "six" = ["six"].
Proof. reflexivity. Qed.
Example split_two : Str.split "==" "a==1==2" = ["a"; "1"; "2"].
Proof. reflexivity. Qed.
Example split_triple : Str.split "==" "a===b" = ["a"; "=b"].
Proof. reflexivity. Qed.
Example split_tail : Str.split "==" "a==" = ["a"; ""].
Proof. reflexivity. Qed.
Example split_empty : Str.split "==" "" = [""].
Proof. reflexivity. Qed.
Example strip_line : Str.strip "  Six==1.16.0
" = "Six==1.16.0".
Proof. reflexivity. Qed.
Example lower_name : Str.lower "PyYAML" = "pyyaml".
Proof. reflexivity. Qed.

(** * Further properties of the commands *)

(** ** `unrestrict` beyond the pins *)

Lemma for_each_fmap {A B} (body : A -> result B) (f : A -> B) (xs : list A) :
  Forall (fun x => body x = Ok (f x)) xs -> for_each body xs = Ok (f <$> xs).
Proof.
  induction 1 as [|x xs Hx _ IH]; [done|].
  cbn [for_each]. rewrite Hx. cbn. by rewrite IH.
Qed.

Lemma prefix_refl (s : string) : String.prefix s s = true.
Proof. induction s as [|c s IH]; [done|]. by rewrite prefix_cons. Qed.

Lemma unrestrict_group_stripped (reqs : list string) :
  unrestrict_group (Some DEFAULT_EXCLUDE_LIST) reqs = Ok (stripped <$> reqs).
Proof.
  apply for_each_fmap, Forall_forall. intros r _.
  unfold unrestrict_requirement, stripped. cbn [py_in mbind result_bind].
  by destruct (bool_decide _ || Str.contains ";" r
               || negb (Str.contains "==" r)).
Qed.

(** Without a caller's list the command always writes, and what it writes
    is [strip_groups]. *)
Lemma unrestrict_default (setup : Setup) :
  unrestrict_requirements [] setup = Ok (strip_groups setup).
Proof.
  unfold unrestrict_requirements, strip_groups. cbn [rebind_exclude].
  rewrite unrestrict_group_stripped. cbn [mbind result_bind].
  rewrite (for_each_fmap _
             (fun item : string * list string =>
                (fst item, stripped <$> snd item))); [done|].
  apply Forall_forall. intros item _.
  by rewrite unrestrict_group_stripped.
Qed.

Lemma stripped_kept (r : string) : kept_as_is r -> stripped r = r.
Proof.
  unfold kept_as_is, stripped. intros [-> | ->]; cbn;
    by rewrite ?orb_true_r.
Qed.

Lemma stripped_no_pin (r : string) :
  stripped r = r \/ Str.contains "==" (stripped r) = false.
Proof.
  unfold stripped.
  destruct (bool_decide _ || Str.contains ";" r || negb (Str.contains "==" r));
    [by left|right].
  by apply first_piece_no_separator.
Qed.

Lemma stripped_idemp (r : string) : stripped (stripped r) = stripped r.
Proof.
  destruct (stripped_no_pin r) as [Hsame|Hpin]; [by rewrite !Hsame|].
  apply stripped_kept. by right.
Qed.

Lemma stripped_prefix (r : string) : String.prefix (stripped r) r = true.
Proof.
  unfold stripped.
  destruct (bool_decide _ || Str.contains ";" r || negb (Str.contains "==" r)).
  - apply prefix_refl.
  - apply first_piece_prefix.
Qed.

Lemma Forall_all_requirements (P : string -> Prop) (setup : Setup) :
  Forall P (all_requirements setup)
  <-> Forall P (install_requires setup)
      /\ Forall (fun item : string * list string => Forall P (snd item))
           (extras_require setup).
Proof.
  unfold all_requirements. by rewrite Forall_app, Forall_concat, Forall_fmap.
Qed.

Lemma strip_groups_fixed (setup : Setup) :
  Forall (fun r => stripped r = r) (all_requirements setup) ->
  strip_groups setup = setup.
Proof.
  intros [Hinstall Hextras]%Forall_all_requirements.
  destruct setup as [install extras pr cl]. unfold strip_groups. cbn in *.
  f_equal.
  - rewrite <- (list_fmap_id install) at 2. by apply Forall_fmap_ext_1.
  - rewrite <- (list_fmap_id extras) at 2. apply Forall_fmap_ext_1.
    eapply Forall_impl; [exact Hextras|]. intros [extra reqs] Hreqs. cbn in *.
    f_equal. rewrite <- (list_fmap_id reqs) at 2. by apply Forall_fmap_ext_1.
Qed.

(** X1. A `setup.json` in which every requirement has an environment marker
    or no `==` is written back as it is. *)
Theorem unrestrict_noop (setup : Setup) :
  Forall kept_as_is (all_requirements setup) ->
  unrestrict_requirements [] setup = Ok setup.
Proof.
  intros Hkept. rewrite unrestrict_default. f_equal.
  apply strip_groups_fixed. eapply Forall_impl; [exact Hkept|].
  apply stripped_kept.
Qed.

Lemma unrestrict_noop_witness :
  unrestrict_requirements []
    {| install_requires := ["six"; "pyblake2==1.1.2; python_version<'3.6'"];
       extras_require := [("docs", ["Sphinx>=1.8"]); ("rest", [])];
       python_requires := ">=3.5";
       classifiers := [] |}
  = Ok {| install_requires := ["six"; "pyblake2==1.1.2; python_version<'3.6'"];
          extras_require := [("docs", ["Sphinx>=1.8"]); ("rest", [])];
          python_requires := ">=3.5";
          classifiers := [] |}.
Proof.
  apply unrestrict_noop. unfold all_requirements. cbn.
  repeat (apply Forall_cons; split); try apply Forall_nil.
  - right. reflexivity.
  - left. reflexivity.
  - right. reflexivity.
  - exact I.
Defined.

(** X2. Without a caller's list, `unrestrict` applied to what it has
    written writes the same `setup.json` again. *)
Theorem unrestrict_idempotent (setup : Setup) :
  exists clone : Setup,
    unrestrict_requirements [] setup = Ok clone
    /\ unrestrict_requirements [] clone = Ok clone.
Proof.
  exists (strip_groups setup). split; [apply unrestrict_default|].
  rewrite unrestrict_default. f_equal. apply strip_groups_fixed.
  apply Forall_all_requirements. unfold strip_groups. cbn. split.
  - apply Forall_fmap, Forall_forall. intros r _. apply stripped_idemp.
  - apply Forall_fmap, Forall_forall. intros [extra reqs] _. cbn.
    apply Forall_fmap, Forall_forall. intros r _. apply stripped_idemp.
Qed.

Lemma unrestrict_group_None (reqs : list string) :
  unrestrict_group None reqs
  = match reqs with
    | [] => Ok []
    | _ :: _ => Raise TypeError "argument of type 'NoneType' is not iterable"
    end.
Proof. by destruct reqs. Qed.

Lemma unrestrict_extras_None (extras : list (string * list string)) :
  for_each
    (fun item : string * list string =>
       requirements ← unrestrict_group None (snd item);
       Ok (fst item, requirements))
    extras
  = match concat (snd <$> extras) with
    | [] => Ok extras
    | _ :: _ => Raise TypeError "argument of type 'NoneType' is not iterable"
    end.
Proof.
  induction extras as [|[extra reqs] extras IH]; [done|].
  cbn [for_each fst snd]. rewrite unrestrict_group_None.
  destruct reqs as [|r reqs]; [|done]. cbn. rewrite IH.
  by destruct (concat (snd <$> extras)).
Qed.

(** X3. `unrestrict` stops with the [TypeError] exactly when a caller's list
    is given and some group has a requirement; it writes exactly when no
    caller's list is given or there is no requirement at all. *)
Theorem unrestrict_raises_iff (exclude : list string) (setup : Setup) :
  (unrestrict_requirements exclude setup
   = Raise TypeError "argument of type 'NoneType' is not iterable"
   <-> exclude <> [] /\ all_requirements setup <> [])
  /\ ((exists clone : Setup, unrestrict_requirements exclude setup = Ok clone)
      <-> exclude = [] \/ all_requirements setup = []).
Proof.
  destruct exclude as [|name exclude].
  { rewrite unrestrict_default. split; split; try done; eauto.
    by intros [? _]. }
  unfold unrestrict_requirements, all_requirements.
  cbn [rebind_exclude list_extend snd].
  rewrite unrestrict_group_None.
  destruct (install_requires setup) as [|r reqs].
  - cbn [mbind result_bind app]. rewrite unrestrict_extras_None.
    destruct (concat (snd <$> extras_require setup)) as [|r' rest] eqn:Hc.
    + cbn. split; split; try done; eauto.
      * by intros [_ ?].
    + cbn. split; split; try done.
      * by intros [? ?].
      * by intros [?|?].
  - cbn. split; split; try done.
    + by intros [? ?].
    + by intros [?|?].
Qed.

(** X4. Whatever `unrestrict` writes in the place of a requirement is the
    beginning of that requirement; the names and the order of the groups,
    `python_requires` and the classifiers are kept. *)
Theorem unrestrict_truncates (exclude : list string) (setup clone : Setup) :
  unrestrict_requirements exclude setup = Ok clone ->
  groups_related (Forall2 (fun r r' => String.prefix r' r = true)) setup clone
  /\ python_requires clone = python_requires setup
  /\ classifiers clone = classifiers setup.
Proof.
  assert (forall ex reqs reqs',
             unrestrict_group ex reqs = Ok reqs' ->
             Forall2 (fun r r' => String.prefix r' r = true) reqs reqs') as Hgroup.
  { intros ex reqs reqs' Hrun%for_each_Forall2.
    eapply Forall2_impl; [exact Hrun|]. intros r r'. cbn.
    unfold unrestrict_requirement. destruct (py_in r ex) as [excluded|]; [|done].
    cbn. destruct (excluded || Str.contains ";" r || negb (Str.contains "==" r));
      intros [= <-]; [apply prefix_refl|apply first_piece_prefix]. }
  unfold unrestrict_requirements, groups_related.
  destruct (unrestrict_group _ (install_requires setup)) as [install|] eqn:Hi;
    [|done]. cbn [mbind result_bind].
  destruct (for_each _ (extras_require setup)) as [extras|] eqn:He; [|done].
  cbn [mbind result_bind]. intros [= <-]. cbn. repeat split; eauto.
  apply for_each_Forall2 in He.
  eapply Forall2_impl; [exact He|]. intros [extra reqs] [extra' reqs'] Hitem.
  cbn [fst snd] in *.
  destruct (unrestrict_group (rebind_exclude exclude) reqs) as [out|] eqn:Hg;
    [|done].
  cbn in Hitem. injection Hitem as <- <-. eauto.
Qed.

Lemma unrestrict_truncates_witness :
  groups_related (Forall2 (fun r r' => String.prefix r' r = true))
    {| install_requires := ["six==1.12.0"; "numpy==1.17.4"];
       extras_require := [("docs", ["Sphinx==1.8.5"; "docutils"])];
       python_requires := ">=3.5";
       classifiers := ["Programming Language :: Python"] |}
    {| install_requires := ["six"; "numpy"];
       extras_require := [("docs", ["Sphinx"; "docutils"])];
       python_requires := ">=3.5";
       classifiers := ["Programming Language :: Python"] |}
  /\ ">=3.5" = ">=3.5"
  /\ ["Programming Language :: Python"] = ["Programming Language :: Python"].
Proof.
  apply (unrestrict_truncates []
           {| install_requires := ["six==1.12.0"; "numpy==1.17.4"];
              extras_require := [("docs", ["Sphinx==1.8.5"; "docutils"])];
              python_requires := ">=3.5";
              classifiers := ["Programming Language :: Python"] |}
           {| install_requires := ["six"; "numpy"];
              extras_require := [("docs", ["Sphinx"; "docutils"])];
              python_requires := ">=3.5";
              classifiers := ["Programming Language :: Python"] |}).
  reflexivity.
Defined.

(** ** Splitting and joining *)

Lemma prefix_app (a s : string) :
  String.prefix a s = true -> exists rest : string, s = a ++ rest.
Proof.
  revert s. induction a as [|c a IH]; intros s Hpre; [by exists s|].
  destruct s as [|d s]; [done|]. cbn [String.prefix] in Hpre.
  destruct (ascii_dec c d) as [->|]; [|done].
  destruct (IH s Hpre) as [rest ->]. by exists rest.
Qed.

Lemma string_length_app (a b : string) :
  String.length (a ++ b) = String.length a + String.length b.
Proof.
  induction a as [|c a IH]; [done|].
  change (String c a ++ b) with (String c (a ++ b)).
  cbn [String.length]. by rewrite IH.
Qed.

Lemma split_from_skip (sep passed rest : string) :
  Str.split_from sep (String.length passed) (passed ++ rest)
  = Str.split_from sep 0 rest.
Proof. induction passed as [|c passed IH]; [done|]. exact IH. Qed.

(** A separator at the start gives an empty first piece. *)
Lemma split_separator_first (sep rest : string) :
  sep <> EmptyString ->
  Str.split sep (sep ++ rest) = EmptyString :: Str.split sep rest.
Proof.
  intros Hsep. unfold Str.split. destruct sep as [|c sep]; [done|].
  change (String c sep ++ rest) with (String c (sep ++ rest)).
  cbn [Str.split_from].
  assert (String.prefix (String c sep) (String c (sep ++ rest)) = true) as ->.
  { rewrite prefix_cons. clear. induction sep as [|d sep IH]; [by destruct rest|].
    change (String d sep ++ rest) with (String d (sep ++ rest)).
    by rewrite prefix_cons. }
  replace (String.length (String c sep) - 1) with (String.length sep)
    by (cbn [String.length]; lia).
  by rewrite split_from_skip.
Qed.

Lemma split_no_separator (sep s : string) :
  Str.contains sep s = false -> Str.split sep s = [s].
Proof.
  unfold Str.split. induction s as [|c s IH]; [done|].
  cbn [Str.contains Str.split_from].
  intros [-> Hrest]%orb_false_iff. by rewrite (IH Hrest).
Qed.

Lemma split_other_first (sep : string) (c : ascii) (s : string) :
  String.prefix sep (String c s) = false ->
  exists (piece : string) (pieces : list string),
    Str.split sep s = piece :: pieces
    /\ Str.split sep (String c s) = String c piece :: pieces.
Proof.
  intros Hpre. unfold Str.split. cbn [Str.split_from]. rewrite Hpre.
  pose proof (split_from_nonempty sep 0 s) as Hne.
  destruct (Str.split_from sep 0 s) as [|piece pieces]; [done|]. eauto.
Qed.

Lemma join_cons_char (sep : string) (c : ascii) (piece : string)
    (pieces : list string) :
  Str.join sep (String c piece :: pieces)
  = String c (Str.join sep (piece :: pieces)).
Proof. by destruct pieces. Qed.

Lemma join_cons_piece (sep p q : string) (pieces : list string) :
  Str.join sep (p :: q :: pieces) = p ++ sep ++ Str.join sep (q :: pieces).
Proof. reflexivity. Qed.

(** Joining the pieces of a split with the separator gives the text back. *)
Lemma join_split (sep s : string) :
  sep <> EmptyString -> Str.join sep (Str.split sep s) = s.
Proof.
  intros Hsep.
  remember (String.length s) as n eqn:Hn. revert s Hn.
  induction n as [n IH] using lt_wf_ind. intros s ->.
  destruct s as [|c s]; [done|].
  destruct (String.prefix sep (String c s)) eqn:Hpre.
  - destruct (prefix_app _ _ Hpre) as [rest Hrest]. rewrite Hrest.
    rewrite split_separator_first by done.
    pose proof (split_from_nonempty sep 0 rest) as Hne.
    assert (Str.join sep (Str.split sep rest) = rest) as Hjoin.
    { apply (IH (String.length rest)); [|done].
      rewrite Hrest, string_length_app. destruct sep; [done|]. cbn. lia. }
    unfold Str.split in *. destruct (Str.split_from sep 0 rest); [done|].
    by rewrite join_cons_piece, Hjoin.
  - destruct (split_other_first sep c s Hpre) as (piece & pieces & Hs & ->).
    rewrite join_cons_char, <- Hs. f_equal.
    apply (IH (String.length s)); [cbn; lia|done].
Qed.

Lemma split_two_join (r p v : string) :
  Str.split "==" r = [p; v] -> r = p ++ "==" ++ v.
Proof.
  intros Hsplit. rewrite <- (join_split "==" r) by done. by rewrite Hsplit.
Qed.

(** ** `update` beyond the pins *)

Lemma update_requirements_fixed (lines : list string) (setup : Setup)
    (pvs : list (string * string)) :
  read_package_versions lines = Ok pvs ->
  Forall (fun r => updated_requirement pvs r = r) (all_requirements setup) ->
  update_requirements lines setup = Ok (sort_groups setup).
Proof.
  intros Hread [Hinstall Hextras]%Forall_all_requirements.
  unfold update_requirements, sort_groups, update_group. rewrite Hread. cbn.
  assert (forall reqs : list string,
             Forall (fun r => updated_requirement pvs r = r) reqs ->
             updated_requirement pvs <$> reqs = reqs) as Hfix.
  { intros reqs Hreqs. rewrite <- (list_fmap_id reqs) at 2.
    by apply Forall_fmap_ext_1. }
  f_equal. f_equal.
  - by rewrite Hfix.
  - apply Forall_fmap_ext_1. eapply Forall_impl; [exact Hextras|].
    intros [extra reqs] Hreqs. cbn in *. by rewrite Hfix.
Qed.

(** X5. `update` changes no requirement that has a `==` in it, whatever the
    snapshot: a `setup.json` whose requirements are all pinned comes back
    with each group sorted and without repetitions, and nothing else
    changed. *)
Theorem update_keeps_pins (lines : list string) (setup : Setup) :
  Forall (fun r => Str.contains "==" r = true) (all_requirements setup) ->
  update_requirements lines setup = Ok (sort_groups setup).
Proof.
  intros Hpins.
  destruct (read_package_versions_total lines) as (pvs & Hread & Hpvs).
  apply (update_requirements_fixed lines setup pvs Hread).
  eapply Forall_impl; [exact Hpins|]. intros r Hr.
  by apply updated_requirement_pinned.
Qed.

Lemma update_keeps_pins_witness :
  update_requirements ["six==1.16.0" ++ newline; "numpy==1.18.0" ++ newline]
    {| install_requires := ["six==1.12.0"; "numpy==1.17.4"; "six==1.12.0"];
       extras_require := [("docs", ["Sphinx==1.8.5"])];
       python_requires := ">=3.5";
       classifiers := [] |}
  = Ok (sort_groups
          {| install_requires := ["six==1.12.0"; "numpy==1.17.4"; "six==1.12.0"];
             extras_require := [("docs", ["Sphinx==1.8.5"])];
             python_requires := ">=3.5";
             classifiers := [] |}).
Proof.
  apply update_keeps_pins. unfold all_requirements. cbn.
  repeat (apply Forall_cons; split); try apply Forall_nil;
    solve [reflexivity | exact I].
Defined.

Lemma read_package_versions_malformed (lines : list string) :
  Forall (fun line => List.length (Str.split "==" (Str.strip line)) <> 2) lines ->
  read_package_versions lines = Ok [].
Proof.
  induction 1 as [|line lines Hline _ IH]; [done|].
  by rewrite malformed_line_no_pin.
Qed.

(** X6. With a snapshot that is empty, or in which no line splits at `==`
    into exactly two parts, `update` changes no requirement: each group is
    only sorted and freed of repetitions. *)
Theorem update_without_versions (lines : list string) (setup : Setup) :
  Forall (fun line => List.length (Str.split "==" (Str.strip line)) <> 2) lines ->
  update_requirements lines setup = Ok (sort_groups setup).
Proof.
  intros Hlines%read_package_versions_malformed.
  apply (update_requirements_fixed lines setup [] Hlines).
  by apply Forall_forall.
Qed.

Lemma update_without_versions_witness :
  update_requirements ["# frozen" ++ newline; newline; "six" ++ newline]
    (manifest ["six"; "numpy"; "six"])
  = Ok (sort_groups (manifest ["six"; "numpy"; "six"])).
Proof.
  apply update_without_versions.
  repeat (apply Forall_cons; split); try apply Forall_nil;
    solve [vm_compute; lia | exact I].
Defined.

Lemma sorted_NoDup (requirements : gset string) : NoDup (sorted requirements).
Proof. unfold sorted. rewrite merge_sort_Permutation. apply NoDup_elements. Qed.

Lemma update_group_length (pvs : list (string * string)) (reqs : list string) :
  List.length (update_group pvs reqs) <= List.length reqs.
Proof.
  rewrite <- (length_fmap (updated_requirement pvs) reqs).
  apply submseteq_length, NoDup_submseteq.
  - apply sorted_NoDup.
  - intros r. unfold update_group.
    by rewrite elem_of_sorted, elem_of_list_to_set.
Qed.

(** X7. In what `update` writes no group has a requirement twice, and no
    group has more requirements than before; the names and the order of the
    groups are kept. *)
Theorem update_no_repetition (lines : list string) (setup : Setup) :
  exists out : Setup,
    update_requirements lines setup = Ok out
    /\ Forall (fun reqs : list string => NoDup reqs)
         (install_requires out :: (snd <$> extras_require out))
    /\ groups_related
         (fun reqs reqs' => List.length reqs' <= List.length reqs) setup out.
Proof.
  destruct (update_requirements_total lines setup) as (pvs & _ & _ & Hrun).
  eexists. split; [exact Hrun|]. cbn. split.
  - constructor; [apply sorted_NoDup|].
    rewrite <- list_fmap_compose. apply Forall_fmap, Forall_forall.
    intros [extra reqs] _. apply sorted_NoDup.
  - split; [apply update_group_length|].
    apply Forall2_fmap_r, Forall_Forall2_diag, Forall_forall.
    intros [extra reqs] _. split; [done|apply update_group_length].
Qed.

(** X8. What `update` writes does not depend on the order of the
    requirements within the groups. *)
Theorem update_order_irrelevant (lines : list string) (setup setup' : Setup) :
  groups_related Permutation setup setup' ->
  python_requires setup = python_requires setup' ->
  classifiers setup = classifiers setup' ->
  update_requirements lines setup = update_requirements lines setup'.
Proof.
  intros [Hinstall Hextras] Hpr Hcl. unfold update_requirements.
  destruct (read_package_versions lines) as [pvs|]; [|done]. cbn.
  rewrite Hpr, Hcl, (update_group_perm pvs _ _ Hinstall). do 2 f_equal.
  induction Hextras as [|[e1 r1] [e2 r2] l1 l2 [He Hr] _ IH]; [done|].
  cbn in *. subst e2. by rewrite IH, (update_group_perm pvs _ _ Hr).
Qed.

Lemma update_order_irrelevant_witness :
  update_requirements ["six==1.16.0" ++ newline]
    {| install_requires := ["six"; "numpy"];
       extras_require := [("docs", ["Sphinx"; "docutils"])];
       python_requires := ">=3.5"; classifiers := [] |}
  = update_requirements ["six==1.16.0" ++ newline]
      {| install_requires := ["numpy"; "six"];
         extras_require := [("docs", ["docutils"; "Sphinx"])];
         python_requires := ">=3.5"; classifiers := [] |}.
Proof.
  apply update_order_irrelevant; [|reflexivity..].
  split; cbn; [apply perm_swap|].
  constructor; [|constructor]. split; [reflexivity|apply perm_swap].
Defined.

(** ** `unrestrict` followed by `update` *)

Lemma read_package_versions_elem (lines : list string)
    (pvs : list (string * string)) (line p v : string) :
  read_package_versions lines = Ok pvs ->
  line ∈ lines ->
  Str.split "==" (Str.strip line) = [p; v] ->
  (p, v) ∈ pvs.
Proof.
  revert pvs. induction lines as [|l lines IH]; intros pvs Hread Hin Hsplit.
  - by apply elem_of_nil in Hin.
  - cbn [read_package_versions] in Hread.
    destruct (try_except_ValueError _ _) as [step|] eqn:Hstep; [|done].
    cbn in Hread.
    destruct (read_package_versions lines) as [others|]; [|done].
    cbn in Hread. injection Hread as <-.
    apply elem_of_cons in Hin as [<-|Hin].
    + rewrite Hsplit in Hstep. cbn in Hstep. injection Hstep as <-. by left.
    + apply elem_of_app. right. by apply (IH others).
Qed.

Lemma updated_requirement_unique (pvs : list (string * string)) (r p v : string) :
  packages_unique pvs ->
  (p, v) ∈ pvs ->
  Str.lower r = Str.lower p ->
  updated_requirement pvs r = Str.lower p ++ "==" ++ v.
Proof.
  unfold packages_unique. intros Huniq Hin Hlow.
  induction pvs as [|[p0 v0] pvs IH]; [by apply elem_of_nil in Hin|].
  cbn [updated_requirement]. rewrite fmap_cons in Huniq.
  apply NoDup_cons in Huniq as [Hfresh Huniq]. cbn in Hfresh.
  apply elem_of_cons in Hin as [[= <- <-]|Hin].
  - by rewrite Hlow, String.eqb_refl.
  - destruct (String.eqb (Str.lower r) (Str.lower p0)) eqn:Heq; [|by apply IH].
    apply String.eqb_eq in Heq. destruct Hfresh.
    rewrite <- Heq, Hlow.
    apply (list_elem_of_fmap_2 (fun pv : string * string => Str.lower (fst pv))
             pvs (p, v) Hin).
Qed.

Lemma plain_pin_parts (r : string) :
  plain_pin r ->
  exists p v : string,
    Str.split "==" r = [p; v] /\ package_of r = p /\ r = p ++ "==" ++ v
    /\ Str.lower p = p /\ stripped r = p.
Proof.
  intros (Hlen & Hmarker & Hlower).
  destruct (Str.split "==" r) as [|p [|v [|w pieces]]] eqn:Hsplit; try done.
  exists p, v. unfold package_of in *. rewrite Hsplit in *. cbn [hd] in *.
  repeat split; [by apply split_two_join|done|].
  assert (Str.contains "==" r = true) as Hpin.
  { destruct (Str.contains "==" r) eqn:Hc; [done|].
    apply split_no_separator in Hc. congruence. }
  unfold stripped. rewrite Hmarker, Hpin, bool_decide_eq_false_2; cbn.
  - unfold package_of. by rewrite Hsplit.
  - intros Hin%default_exclude_no_pin. congruence.
Qed.

(** X9. The two rewrites one after the other. When every requirement of a
    `setup.json` is a plain pin, `unrestrict` without a caller's list,
    followed by `update` with a snapshot that has each of these pins as a
    line and no package twice, gives the `setup.json` back with each group
    sorted and freed of repetitions. *)
Theorem unrestrict_then_update (setup : Setup) (lines : list string)
    (pvs : list (string * string)) :
  Forall plain_pin (all_requirements setup) ->
  Forall (fun r => r ∈ Str.strip <$> lines) (all_requirements setup) ->
  read_package_versions lines = Ok pvs ->
  packages_unique pvs ->
  exists clone : Setup,
    unrestrict_requirements [] setup = Ok clone
    /\ update_requirements lines clone = Ok (sort_groups setup).
Proof.
  intros Hpins Hlines Hread Huniq.
  exists (strip_groups setup). split; [apply unrestrict_default|].
  assert (Forall (fun r => updated_requirement pvs (stripped r) = r)
            (all_requirements setup)) as Hback.
  { apply Forall_forall. intros r Hr.
    rewrite Forall_forall in Hpins, Hlines.
    destruct (plain_pin_parts r (Hpins r Hr)) as (p & v & Hs & _ & Hr' & Hlow & ->).
    apply Hlines in Hr as Hline.
    apply list_elem_of_fmap in Hline as (line & -> & Hline).
    rewrite (updated_requirement_unique pvs p p v Huniq); [by rewrite Hlow| |done].
    by apply (read_package_versions_elem lines pvs line). }
  apply Forall_all_requirements in Hback as [Hinstall Hextras].
  assert (forall reqs : list string,
             Forall (fun r => updated_requirement pvs (stripped r) = r) reqs ->
             update_group pvs (stripped <$> reqs) = sorted (list_to_set reqs))
    as Hgroup.
  { intros reqs Hreqs. unfold update_group. rewrite <- list_fmap_compose.
    do 2 f_equal. rewrite <- (list_fmap_id reqs) at 2.
    by apply Forall_fmap_ext_1. }
  unfold update_requirements, sort_groups, strip_groups.
  rewrite Hread. cbn. do 2 f_equal.
  - by apply Hgroup.
  - rewrite <- list_fmap_compose. apply Forall_fmap_ext_1.
    eapply Forall_impl; [exact Hextras|]. intros [extra reqs] Hreqs. cbn in *.
    by rewrite Hgroup.
Qed.

Lemma unrestrict_then_update_witness :
  exists clone : Setup,
    unrestrict_requirements []
      {| install_requires := ["six==1.12.0"; "numpy==1.17.4"];
         extras_require := [("docs", ["sphinx==1.8.5"; "six==1.12.0"])];
         python_requires := ">=3.5";
         classifiers := [] |}
    = Ok clone
    /\ update_requirements
         ["numpy==1.17.4" ++ newline; "pytz==2019.3" ++ newline;
          "six==1.12.0" ++ newline; "sphinx==1.8.5" ++ newline]
         clone
       = Ok (sort_groups
               {| install_requires := ["six==1.12.0"; "numpy==1.17.4"];
                  extras_require := [("docs", ["sphinx==1.8.5"; "six==1.12.0"])];
                  python_requires := ">=3.5";
                  classifiers := [] |}).
Proof.
  apply (unrestrict_then_update _ _
           [("numpy", "1.17.4"); ("pytz", "2019.3"); ("six", "1.12.0");
            ("sphinx", "1.8.5")]).
  - unfold all_requirements, plain_pin. cbn.
    repeat (apply Forall_cons; split); try apply Forall_nil;
      solve [repeat split; reflexivity | exact I].
  - apply (bool_decide_unpack _). vm_compute. exact I.
  - reflexivity.
  - apply (bool_decide_unpack _). vm_compute. exact I.
Defined.

(** ** From `setup.json` to conda *)

Section CondaFacts.
Context `{PkgResources}.

Lemma prefix_app_refl (p rest : string) : String.prefix p (p ++ rest) = true.
Proof.
  induction p as [|c p IH]; [by destruct rest|].
  change (String c p ++ rest) with (String c (p ++ rest)).
  by rewrite prefix_cons.
Qed.

Lemma re_sub_first (pattern replacement rest : string) :
  pattern <> EmptyString ->
  Str.contains pattern rest = false ->
  re_sub pattern replacement (pattern ++ rest) = replacement ++ rest.
Proof.
  intros Hne Hrest. unfold re_sub.
  by rewrite split_separator_first, split_no_separator.
Qed.

(** X10. A requirement whose text begins with a pattern of the table, and
    has the pattern nowhere else, is translated into the requirement parsed
    from the text with the pattern replaced: `psycopg2-binary...` becomes
    `psycopg2...` and `graphviz...` becomes `python-graphviz...`. *)
Theorem setuptools_to_conda_mapping (req : Requirement)
    (pattern replacement rest : string) :
  (pattern, replacement) ∈ SETUPTOOLS_CONDA_MAPPINGS ->
  req_str req = pattern ++ rest ->
  Str.contains pattern rest = false ->
  _setuptools_to_conda req = parse (replacement ++ rest).
Proof.
  unfold _setuptools_to_conda, SETUPTOOLS_CONDA_MAPPINGS.
  rewrite !elem_of_cons, elem_of_nil.
  intros [[= -> ->]|[[= -> ->]|[]]] Hstr Hrest;
    cbn [setuptools_to_conda_in]; rewrite Hstr.
  - unfold re_match. rewrite prefix_app_refl. by rewrite re_sub_first.
  - unfold re_match at 1.
    replace (String.prefix "psycopg2-binary" ("graphviz" ++ rest)) with false
      by reflexivity.
    unfold re_match. rewrite prefix_app_refl. by rewrite re_sub_first.
Qed.

Lemma set_mem_true (x : Requirement) (s : list Requirement) :
  set_mem x s = true <-> exists y : Requirement, y ∈ s /\ req_eqb x y = true.
Proof.
  unfold set_mem. rewrite existsb_exists.
  split; intros (y & Hy & Hxy); exists y; by rewrite ?list_elem_of_In in *.
Qed.

Lemma elem_of_set_add (x y : Requirement) (s : list Requirement) :
  x ∈ set_add y s -> x ∈ s \/ x = y.
Proof.
  unfold set_add. destruct (set_mem y s); [by left|].
  rewrite elem_of_app, list_elem_of_singleton. tauto.
Qed.

Lemma elem_of_set_update (x : Requirement) (s items : list Requirement) :
  x ∈ set_update s items -> x ∈ s \/ x ∈ items.
Proof.
  unfold set_update. revert s.
  induction items as [|y items IH]; intros s; cbn [fold_left]; [by left|].
  intros [[Hs| ->]%elem_of_set_add|Hitems]%IH; [by left|right; by left|].
  right. by right.
Qed.

Lemma elem_of_set_of_list (x : Requirement) (items : list Requirement) :
  x ∈ set_of_list items -> x ∈ items.
Proof.
  intros [Hnil|Hitems]%elem_of_set_update; [|done].
  by apply elem_of_nil in Hnil.
Qed.

Lemma find_python_none (pool : list Requirement) :
  Forall (fun d => req_name d <> "python") pool ->
  find_python pool
  = Raise ClickException
      "Did not find specification of Python version in 'environment.yml'.".
Proof.
  intros Hpool. unfold find_python.
  destruct (List.find _ pool) as [d|] eqn:Hfind; [|done].
  apply find_some in Hfind as [Hd Hname%String.eqb_eq].
  rewrite Forall_forall in Hpool. by destruct (Hpool d); [apply list_elem_of_In|].
Qed.

(** X11. When `setup.json` and `environment.yml` parse and no dependency of
    `environment.yml` is named `python` (an empty list among them), the
    check stops with the message that the Python version was not found. *)
Theorem validate_without_python (setup_cfg : Setup) (dependencies : list string)
    (install : list Requirement) (python : Requirement)
    (parsed : list Requirement) :
  for_each parse (install_requires setup_cfg) = Ok install ->
  parse ("python" ++ python_requires setup_cfg) = Ok python ->
  for_each parse dependencies = Ok parsed ->
  Forall (fun d => req_name d <> "python") parsed ->
  validate_environment_yml setup_cfg dependencies
  = Raise ClickException
      "Did not find specification of Python version in 'environment.yml'.".
Proof.
  intros Hinstall Hpython Hparsed Hnames. unfold validate_environment_yml.
  rewrite Hinstall. cbn [mbind result_bind].
  rewrite Hpython. cbn [mbind result_bind].
  rewrite Hparsed. cbn [mbind result_bind].
  rewrite find_python_none; [done|].
  apply Forall_forall. intros d Hd%elem_of_set_of_list.
  rewrite Forall_forall in Hnames. by apply Hnames.
Qed.

Lemma set_remove_Ok (x : Requirement) (s s' : list Requirement) :
  set_remove x s = Ok s' ->
  set_mem x s = true /\ s' = filter (fun y => req_eqb x y = false) s.
Proof.
  unfold set_remove. destruct (set_mem x s); [|done]. by intros [= <-].
Qed.

(** The third loop, when it ends without error: each requirement that is
    not passed over was found in the pool, and a member of the pool is
    either left or was taken out by a requirement. *)
Lemma match_requirements_Ok (reqs pool remaining : list Requirement) :
  match_requirements reqs pool = Ok remaining ->
  (forall req : Requirement,
      req ∈ reqs -> conda_ignored req = false ->
      exists t : Requirement,
        _setuptools_to_conda req = Ok t /\ set_mem t pool = true)
  /\ (forall d : Requirement,
        d ∈ pool ->
        d ∈ remaining
        \/ exists req t : Requirement,
             req ∈ reqs /\ conda_ignored req = false
             /\ _setuptools_to_conda req = Ok t /\ req_eqb t d = true).
Proof.
  revert pool. induction reqs as [|req reqs IH]; intros pool.
  - intros [= <-]. split; [|by left]. intros req Hreq.
    by apply elem_of_nil in Hreq.
  - cbn [match_requirements]. fold (conda_ignored req).
    destruct (conda_ignored req) eqn:Hignored.
    + intros [Hfound Hpool]%IH. split.
      * intros req' [->|Hreq']%elem_of_cons Hnot; [congruence|eauto].
      * intros d [Hd|(req' & t & Hreq' & Hrest)]%Hpool; [by left|].
        right. exists req', t. split; [by right|done].
    + destruct (_setuptools_to_conda req) as [t|] eqn:Htrans; [|done].
      cbn [mbind result_bind].
      destruct (set_remove t pool) as [pool'|cls msg] eqn:Hremove;
        [|by destruct cls].
      apply set_remove_Ok in Hremove as [Hmem ->].
      intros [Hfound Hpool]%IH. split.
      * intros req' [->|Hreq']%elem_of_cons Hnot; [eauto|].
        destruct (Hfound req' Hreq' Hnot) as (t' & Ht' & Hmem').
        exists t'. split; [done|].
        apply set_mem_true in Hmem' as (y & [_ Hy]%list_elem_of_filter & Hty).
        apply set_mem_true. eauto.
      * intros d Hd. destruct (req_eqb t d) eqn:Htd.
        -- right. exists req, t. split; [by left|done].
        -- destruct (Hpool d) as [Hleft|(req' & t' & Hreq' & Hrest)].
           ++ by apply list_elem_of_filter.
           ++ by left.
           ++ right. exists req', t'. split; [by right|done].
Qed.

(** X12. When `validate-environment-yml` succeeds, `environment.yml` has a
    dependency named `python`; each requirement of `setup.json` that is not
    passed over is, after translation, among the conda dependencies; and
    each conda dependency other than that `python` is the translation of
    such a requirement. *)
Theorem validate_environment_yml_sound (setup_cfg : Setup)
    (dependencies : list string) :
  validate_environment_yml setup_cfg dependencies = Ok tt ->
  exists (install parsed : list Requirement) (python : Requirement),
    for_each parse (install_requires setup_cfg) = Ok install
    /\ for_each parse dependencies = Ok parsed
    /\ python ∈ set_of_list parsed
    /\ req_name python = "python"
    /\ (forall req : Requirement,
          req ∈ install -> conda_ignored req = false ->
          exists t : Requirement,
            _setuptools_to_conda req = Ok t
            /\ set_mem t (set_of_list parsed) = true)
    /\ (forall d : Requirement,
          d ∈ set_of_list parsed -> req_eqb python d = false ->
          exists req t : Requirement,
            req ∈ install /\ conda_ignored req = false
            /\ _setuptools_to_conda req = Ok t /\ req_eqb t d = true).
Proof.
  unfold validate_environment_yml.
  destruct (for_each parse (install_requires setup_cfg)) as [install|];
    [|done]. cbn [mbind result_bind].
  destruct (parse _) as [pr|]; [|done]. cbn [mbind result_bind].
  destruct (for_each parse dependencies) as [parsed|]; [|done].
  cbn [mbind result_bind].
  destruct (find_python (set_of_list parsed)) as [[python pool]|] eqn:Hfind;
    [|done]. cbn [mbind result_bind fst snd].
  destruct (check_python_specifier _ python pr); [|done].
  cbn [mbind result_bind].
  destruct (match_requirements install pool) as [remaining|] eqn:Hmatch;
    [|done]. cbn [mbind result_bind].
  destruct (check_leftover_cases remaining) as [[-> _]|[_ ->]]; [|done].
  intros _. exists install, parsed, python.
  unfold find_python in Hfind.
  destruct (List.find _ (set_of_list parsed)) as [d|] eqn:Hd; [|done].
  apply find_some in Hd as [Hin%list_elem_of_In Hname%String.eqb_eq].
  destruct (set_remove d (set_of_list parsed)) as [rest|] eqn:Hremove; [|done].
  cbn in Hfind. injection Hfind as -> ->.
  apply set_remove_Ok in Hremove as [_ ->].
  apply match_requirements_Ok in Hmatch as [Hfound Hpool].
  repeat split; [done..| |].
  - intros req Hreq Hnot. destruct (Hfound req Hreq Hnot) as (t & Ht & Hmem).
    exists t. split; [done|].
    apply set_mem_true in Hmem as (y & [_ Hy]%list_elem_of_filter & Hty).
    apply set_mem_true. eauto.
  - intros d Hd Hne. destruct (Hpool d) as [Hleft|Hreq]; [|by apply elem_of_nil in Hleft|done].
    by apply list_elem_of_filter.
Qed.

End CondaFacts.

Section CheckFacts.
Context `{PkgResources}.

Lemma for_each_app {A B} (body : A -> result B) (xs ys : list A) :
  for_each body (xs ++ ys)
  = (front ← for_each body xs; rest ← for_each body ys; Ok (front ++ rest)%list).
Proof.
  induction xs as [|x xs IH]; cbn [for_each app].
  - cbn. by destruct (for_each body ys).
  - destruct (body x) as [y|]; [|done]. cbn. rewrite IH.
    destruct (for_each body xs) as [front|]; [|done]. cbn.
    by destruct (for_each body ys).
Qed.

Lemma match_requirements_ignored (before after : list Requirement)
    (req : Requirement) (pool : list Requirement) :
  conda_ignored req = true ->
  match_requirements (before ++ req :: after) pool
  = match_requirements (before ++ after) pool.
Proof.
  intros Hignored. revert pool.
  induction before as [|r before IH]; intros pool; cbn [match_requirements app].
  - fold (conda_ignored req). by rewrite Hignored.
  - destruct (existsb _ CONDA_IGNORE); [apply IH|].
    destruct (_setuptools_to_conda r) as [t|]; [|done]. cbn.
    destruct (set_remove t pool) as [pool'|cls msg]; [apply IH|done].
Qed.

Lemma conda_requires_of_ignored (before after : list Requirement)
    (req : Requirement) :
  conda_ignored req = true ->
  conda_requires_of (before ++ req :: after)
  = conda_requires_of (before ++ after).
Proof.
  intros Hignored.
  induction before as [|r before IH]; cbn [conda_requires_of app].
  - fold (conda_ignored req). by rewrite Hignored, orb_true_r.
  - by rewrite IH.
Qed.

(** X13. A requirement of `setup.json` whose text begins with `pyblake2`
    has no part in the conda files: with it or without it in the install
    list, `generate-environment-yml` writes the same document and
    `validate-environment-yml` gives the same result. *)
Theorem conda_ignores_requirement (setup_cfg : Setup)
    (before after : list string) (text : string) (req : Requirement)
    (dependencies : list string) :
  install_requires setup_cfg = (before ++ text :: after)%list ->
  parse text = Ok req ->
  conda_ignored req = true ->
  generate_environment_yml setup_cfg
  = generate_environment_yml (with_install setup_cfg (before ++ after))
  /\ validate_environment_yml setup_cfg dependencies
     = validate_environment_yml (with_install setup_cfg (before ++ after))
         dependencies.
Proof.
  intros Hinstall Htext Hignored.
  unfold generate_environment_yml, validate_environment_yml, with_install.
  cbn [install_requires python_requires classifiers].
  rewrite Hinstall, !for_each_app. cbn [for_each]. rewrite Htext.
  destruct (for_each parse before) as [rb|]; [|done].
  destruct (for_each parse after) as [ra|]; [|done].
  cbn [mbind result_bind]. split.
  - by rewrite conda_requires_of_ignored.
  - destruct (parse ("python" ++ python_requires setup_cfg)) as [pr|]; [|done].
    cbn [mbind result_bind].
    destruct (for_each parse dependencies) as [parsed|]; [|done].
    cbn [mbind result_bind].
    destruct (find_python _) as [found|]; [|done]. cbn [mbind result_bind].
    destruct (check_python_specifier _ _ _); [|done]. cbn [mbind result_bind].
    by rewrite match_requirements_ignored.
Qed.

Lemma extras_get_missing (setup_cfg : Setup) (key : string) :
  Forall (fun item : string * list string => fst item <> key)
    (extras_require setup_cfg) ->
  extras_get setup_cfg key = Raise KeyError ("'" ++ key ++ "'").
Proof.
  intros Hmissing. unfold extras_get.
  destruct (List.find _ _) as [item|] eqn:Hfind; [|done].
  apply find_some in Hfind as [Hin%list_elem_of_In Hkey%String.eqb_eq].
  rewrite Forall_forall in Hmissing. by destruct (Hmissing item Hin).
Qed.

Lemma update_from_extras_missing (setup_cfg : Setup)
    (present later : list string) (key : string)
    (groups : list (list Requirement)) (s : list Requirement) :
  Forall2 (group_parsed setup_cfg) present groups ->
  Forall (fun item : string * list string => fst item <> key)
    (extras_require setup_cfg) ->
  update_from_extras setup_cfg (present ++ key :: later) s
  = Raise KeyError ("'" ++ key ++ "'").
Proof.
  intros Hgroups Hmissing. revert s.
  induction Hgroups as [|k group ks groups (texts & Hget & Hparse) _ IH];
    intros s; cbn [update_from_extras app].
  - by rewrite extras_get_missing.
  - rewrite Hget. cbn. rewrite Hparse. cbn. apply IH.
Qed.

(** X14. The two commands for the documentation list need the four groups
    `testing`, `docs`, `rest` and `atomic_tools` among the extras: when the
    install list and the groups before it parse and a group is not there,
    both stop with a [KeyError] for the first group that is not there. *)
Theorem rtd_commands_need_the_groups (setup_cfg : Setup)
    (present later : list string) (key : string)
    (install : list Requirement) (groups : list (list Requirement))
    (rtd_lines : list string) :
  ["testing"; "docs"; "rest"; "atomic_tools"] = (present ++ key :: later)%list ->
  for_each parse (install_requires setup_cfg) = Ok install ->
  Forall2 (group_parsed setup_cfg) present groups ->
  Forall (fun item : string * list string => fst item <> key)
    (extras_require setup_cfg) ->
  generate_requirements_for_rtd setup_cfg = Raise KeyError ("'" ++ key ++ "'")
  /\ validate_rtd_reqs setup_cfg rtd_lines = Raise KeyError ("'" ++ key ++ "'").
Proof.
  intros Hkeys Hinstall Hgroups Hmissing.
  assert (combined_requirements setup_cfg = Raise KeyError ("'" ++ key ++ "'"))
    as Hcombined.
  { unfold combined_requirements. rewrite Hinstall, Hkeys.
    cbn [mbind result_bind]. by eapply update_from_extras_missing. }
  unfold generate_requirements_for_rtd, validate_rtd_reqs.
  by rewrite Hcombined.
Qed.

(** X15. `validate-all` succeeds only if the check of `environment.yml` and
    the check of the documentation list succeed, `pyproject.toml` is there,
    and the first requirement of `setup.json` named `reentry` is among the
    build requirements of `pyproject.toml`. *)
Theorem validate_all_sound (setup_cfg : Setup) (dependencies : list string)
    (pyproject : option (list string)) (rtd_lines : list string) :
  validate_all setup_cfg dependencies pyproject rtd_lines = Ok tt ->
  validate_environment_yml setup_cfg dependencies = Ok tt
  /\ validate_rtd_reqs setup_cfg rtd_lines = Ok tt
  /\ exists (install : list Requirement) (requires : list string)
       (build : list Requirement) (reentry : Requirement),
       for_each parse (install_requires setup_cfg) = Ok install
       /\ List.find (fun r => String.eqb (req_name r) "reentry") install
          = Some reentry
       /\ pyproject = Some requires
       /\ for_each parse requires = Ok build
       /\ list_mem reentry build = true.
Proof.
  unfold validate_all.
  destruct (validate_environment_yml setup_cfg dependencies) as [[]|]; [|done].
  cbn [mbind result_bind].
  destruct (validate_pyproject_toml setup_cfg pyproject) as [[]|] eqn:Hpy;
    [|done]. cbn [mbind result_bind].
  intros Hrtd. repeat split; [done|].
  unfold validate_pyproject_toml in Hpy.
  destruct (for_each parse (install_requires setup_cfg)) as [install|]; [|done].
  cbn [mbind result_bind] in Hpy.
  destruct (List.find _ install) as [reentry|] eqn:Hfind; [|done].
  destruct pyproject as [requires|]; [|done].
  destruct (for_each parse requires) as [build|] eqn:Hbuild; [|done].
  cbn [mbind result_bind] in Hpy.
  destruct (list_mem reentry build) eqn:Hmem; [|done].
  exists install, requires, build, reentry. repeat split; assumption.
Qed.

End CheckFacts.

(** ** A generated `environment.yml` against its `setup.json` *)

Section RoundTrips.
Context `{PkgResources}.
Hypothesis laws : eqb_equivalence.

Lemma req_eqb_reflexive (x : Requirement) : req_eqb x x = true.
Proof. destruct laws as (Hrefl & _ & _). apply Hrefl. Qed.

Lemma req_eqb_symmetric (x y : Requirement) : req_eqb x y = true -> req_eqb y x = true.
Proof. destruct laws as (_ & Hsym & _). apply Hsym. Qed.

Lemma req_eqb_transitive (x y z : Requirement) :
  req_eqb x y = true -> req_eqb y z = true -> req_eqb x z = true.
Proof. destruct laws as (_ & _ & Htrans). apply Htrans. Qed.

(** The third loop takes everything out of the pool when the translations
    are distinct, each is in the pool, and the pool has nothing else. *)
Lemma match_requirements_complete (reqs ts pool : list Requirement) :
  conda_translations reqs = Ok ts ->
  distinct_requirements ts ->
  Forall (fun t => set_mem t pool = true) ts ->
  Forall (fun d => exists t : Requirement, t ∈ ts /\ req_eqb t d = true) pool ->
  match_requirements reqs pool = Ok [].
Proof.
  revert ts pool. induction reqs as [|req reqs IH]; intros ts pool.
  - intros [= <-] _ _ Hcovered. destruct pool as [|d pool]; [done|].
    apply Forall_cons in Hcovered as [(t & Ht & _) _].
    by apply elem_of_nil in Ht.
  - cbn [conda_translations match_requirements]. fold (conda_ignored req).
    destruct (conda_ignored req); [apply IH|].
    destruct (_setuptools_to_conda req) as [t|]; [|done].
    cbn [mbind result_bind].
    destruct (conda_translations reqs) as [ts'|] eqn:Hts; [|done].
    cbn [mbind result_bind]. intros [= <-] [Hfresh Hdistinct].
    intros [Hmem Hpresent]%Forall_cons Hcovered.
    unfold set_remove. rewrite Hmem.
    apply (IH ts'); [done..| |].
    + rewrite Forall_forall in Hpresent, Hfresh. apply Forall_forall.
      intros u Hu. apply set_mem_true.
      destruct (proj1 (set_mem_true u pool) (Hpresent u Hu)) as (y & Hy & Huy).
      exists y. split; [|done]. apply list_elem_of_filter. split; [|done].
      destruct (req_eqb t y) eqn:Hty; [|done].
      pose proof (Hfresh u Hu) as Htu.
      by rewrite (req_eqb_transitive t y u Hty (req_eqb_symmetric u y Huy)) in Htu.
    + rewrite Forall_forall in Hcovered. apply Forall_forall.
      intros d [Htd Hd]%list_elem_of_filter.
      destruct (Hcovered d Hd) as (t0 & [->|Ht0]%elem_of_cons & Ht0d);
        [congruence|eauto].
Qed.

Lemma conda_requires_of_translations (reqs ts : list Requirement) :
  Forall (fun req => req_name req <> "python") reqs ->
  conda_translations reqs = Ok ts ->
  conda_requires_of reqs = Ok (req_str <$> ts).
Proof.
  intros Hnames. revert ts.
  induction Hnames as [|req reqs Hname _ IH]; intros ts.
  - by intros [= <-].
  - cbn [conda_translations conda_requires_of]. fold (conda_ignored req).
    apply String.eqb_neq in Hname. rewrite Hname. cbn [orb].
    destruct (conda_ignored req); [apply IH|].
    destruct (_setuptools_to_conda req) as [t|]; [|done].
    cbn [mbind result_bind].
    destruct (conda_translations reqs) as [ts'|]; [|done].
    cbn [mbind result_bind]. intros [= <-]. by rewrite (IH ts').
Qed.

Lemma for_each_parse_back (ts : list Requirement) :
  Forall (fun t => parses_back (req_str t) t) ts ->
  exists ts' : list Requirement,
    for_each parse (req_str <$> ts) = Ok ts'
    /\ Forall2 (fun t t' => req_eqb t t' = true) ts ts'.
Proof.
  induction 1 as [|t ts (t' & Hparse & Heq) _ (ts' & IH & Hall)].
  - by exists [].
  - exists (t' :: ts'). rewrite fmap_cons. cbn [for_each].
    rewrite Hparse. cbn. rewrite IH. cbn. split; [done|]. by constructor.
Qed.

Lemma set_update_prefix (s items : list Requirement) :
  exists extra : list Requirement, set_update s items = (s ++ extra)%list.
Proof.
  unfold set_update. revert s.
  induction items as [|x items IH]; intros s; cbn [fold_left].
  - exists []. by rewrite app_nil_r.
  - destruct (IH (set_add x s)) as [extra ->]. unfold set_add.
    destruct (set_mem x s); [by exists extra|].
    exists (x :: extra). by rewrite <- app_assoc.
Qed.

(** The pool after the dependency `python` is taken out of the parsed
    document. *)
Lemma generated_pool_present (python : Requirement) (ts ts' : list Requirement) :
  Forall (fun u => req_eqb python u = false) ts ->
  Forall2 (fun t t' => req_eqb t t' = true) ts ts' ->
  Forall
    (fun t =>
       set_mem t (filter (fun y => req_eqb python y = false)
                    (set_of_list (python :: ts'))) = true)
    ts.
Proof.
  intros Hpython Hall. rewrite Forall_forall in Hpython.
  apply Forall_forall. intros t Ht.
  apply list_elem_of_lookup in Ht as [i Hi].
  destruct (Forall2_lookup_l _ _ _ i t Hall Hi) as (t' & Hi' & Htt').
  assert (set_mem t' (set_of_list (python :: ts')) = true) as Hmem.
  { rewrite (set_mem_of_list req_eqb_transitive). apply set_mem_true.
    exists t'. split; [|apply req_eqb_reflexive].
    right. apply list_elem_of_lookup. eauto. }
  apply set_mem_true in Hmem as (y & Hy & Hty).
  apply set_mem_true. exists y. split; [|by apply (req_eqb_transitive t t' y)].
  apply list_elem_of_filter. split; [|done].
  destruct (req_eqb python y) eqn:Hpy; [|done].
  assert (req_eqb python t = true) as Hpt.
  { apply (req_eqb_transitive python y t Hpy), req_eqb_symmetric.
    by apply (req_eqb_transitive t t' y). }
  rewrite Hpython in Hpt; [done|]. apply list_elem_of_lookup. eauto.
Qed.

Lemma generated_pool_covered (python : Requirement) (ts ts' : list Requirement) :
  Forall2 (fun t t' => req_eqb t t' = true) ts ts' ->
  Forall (fun d => exists t : Requirement, t ∈ ts /\ req_eqb t d = true)
    (filter (fun y => req_eqb python y = false) (set_of_list (python :: ts'))).
Proof.
  intros Hall. apply Forall_forall.
  intros d [Hpd [->|Hd]%elem_of_set_of_list%elem_of_cons]%list_elem_of_filter.
  - by rewrite req_eqb_reflexive in Hpd.
  - apply list_elem_of_lookup in Hd as [i Hi].
    destruct (Forall2_lookup_r _ _ _ i d Hall Hi) as (t & Hi' & Htd).
    exists t. split; [|done]. apply list_elem_of_lookup. eauto.
Qed.

(** X16. The document of `generate-environment-yml` passes
    `validate-environment-yml` against the same `setup.json`, provided that
    no install requirement is named `python`, the translations of the
    requirements are pairwise different and different from `python~=3.7`,
    the text of each translation parses back to it, and the Python version
    of the document passes the check of the specifier. *)
Theorem generated_environment_validates (setup_cfg : Setup) (env : Environment)
    (install ts : list Requirement) (python python_requires' : Requirement) :
  generate_environment_yml setup_cfg = Ok env ->
  for_each parse (install_requires setup_cfg) = Ok install ->
  Forall (fun req => req_name req <> "python") install ->
  conda_translations install = Ok ts ->
  distinct_requirements (python :: ts) ->
  Forall (fun t => parses_back (req_str t) t) ts ->
  parse "python~=3.7" = Ok python ->
  req_name python = "python" ->
  parse ("python" ++ python_requires setup_cfg) = Ok python_requires' ->
  check_python_specifier (classifiers setup_cfg) python python_requires' = Ok tt ->
  validate_environment_yml setup_cfg (env_dependencies env) = Ok tt.
Proof.
  intros Hgen Hinstall Hnames Hts [Hpython Hdistinct] Hback Hparse Hname Hpr Hcheck.
  unfold generate_environment_yml in Hgen. rewrite Hinstall in Hgen.
  cbn [mbind result_bind] in Hgen.
  rewrite (conda_requires_of_translations install ts Hnames Hts) in Hgen.
  cbn [mbind result_bind] in Hgen. injection Hgen as <-.
  cbn [env_dependencies].
  destruct (for_each_parse_back ts Hback) as (ts' & Hparsed & Hall).
  unfold validate_environment_yml. rewrite Hinstall. cbn [mbind result_bind].
  rewrite Hpr. cbn [mbind result_bind for_each].
  rewrite Hparse. cbn [mbind result_bind].
  rewrite Hparsed. cbn [mbind result_bind].
  assert (find_python (set_of_list (python :: ts'))
          = Ok (python,
                filter (fun y => req_eqb python y = false)
                  (set_of_list (python :: ts')))) as ->.
  { destruct (set_update_prefix [python] ts') as [extra Hextra].
    change (set_of_list (python :: ts')) with (set_update [python] ts').
    unfold find_python. rewrite Hextra. cbn [app List.find].
    rewrite Hname, String.eqb_refl.
    unfold set_remove, set_mem. cbn [existsb mbind result_bind].
    by rewrite req_eqb_reflexive. }
  cbn [mbind result_bind fst snd]. rewrite Hcheck. cbn [mbind result_bind].
  rewrite (match_requirements_complete install ts); [done..| |].
  - by apply generated_pool_present.
  - by apply generated_pool_covered.
Qed.

End RoundTrips.

(** ** A generated documentation list against its `setup.json` *)

Lemma newline_free_cons (c : ascii) (t : string) :
  Str.contains newline (String c t) = false ->
  Ascii.eqb c "010"%char = false /\ Str.contains newline t = false.
Proof.
  cbn [Str.contains]. intros [Hpre Ht]%orb_false_iff. split; [|done].
  destruct (Ascii.eqb_spec c "010"%char) as [->|]; [|done].
  unfold newline in Hpre. rewrite prefix_cons in Hpre. by destruct t.
Qed.

Lemma file_lines_plain (t : string) :
  t <> EmptyString ->
  Str.contains newline t = false ->
  file_lines t = [t].
Proof.
  induction t as [|c t IH]; [done|].
  intros _ [Hc Ht]%newline_free_cons. cbn [file_lines]. rewrite Hc.
  destruct t as [|d t]; [done|]. by rewrite IH.
Qed.

Lemma file_lines_line (t rest : string) :
  Str.contains newline t = false ->
  file_lines (t ++ newline ++ rest) = (t ++ newline) :: file_lines rest.
Proof.
  induction t as [|c t IH]; [done|].
  intros [Hc Ht]%newline_free_cons.
  change (String c t ++ newline ++ rest) with (String c (t ++ newline ++ rest)).
  cbn [file_lines]. by rewrite Hc, IH.
Qed.

(** The lines read back from the joined texts: each text, with a line end
    except for the last. *)
Lemma file_lines_join (texts : list string) :
  Forall (fun t => t <> EmptyString /\ Str.contains newline t = false) texts ->
  Forall2 (fun t line => line = t \/ line = t ++ newline) texts
    (file_lines (Str.join newline texts)).
Proof.
  induction texts as [|t texts IH]; [constructor|].
  intros [[Hne Hfree] Htexts]%Forall_cons.
  destruct texts as [|u texts].
  - cbn [Str.join]. rewrite file_lines_plain by done.
    constructor; [by left|constructor].
  - rewrite join_cons_piece, file_lines_line by done.
    constructor; [by right|by apply IH].
Qed.

Section RtdRoundTrip.
Context `{PkgResources}.
Hypothesis laws : eqb_equivalence.

Lemma parse_lines_back (combined : list Requirement)
    (texts lines : list string) :
  Forall round_trips_as_line combined ->
  Forall2 (fun t line => line = t \/ line = t ++ newline) texts lines ->
  Forall (fun t => exists r : Requirement, r ∈ combined /\ req_str r = t) texts ->
  exists flat : list Requirement,
    for_each parse lines = Ok flat
    /\ Forall2
         (fun t r' =>
            forall r : Requirement,
              r ∈ combined -> req_str r = t -> req_eqb r r' = true)
         texts flat.
Proof.
  intros Hok Hlines. rewrite Forall_forall in Hok.
  induction Hlines as [|t line texts lines Hline _ IH].
  - intros _. by exists [].
  - intros [(r0 & Hr0 & Ht) Htexts]%Forall_cons.
    destruct (IH Htexts) as (flat & Hflat & Hall).
    assert (exists r' : Requirement, parse line = Ok r') as [r' Hparse].
    { destruct (Hok r0 Hr0) as (_ & _ & (r1 & H1 & _) & (r2 & H2 & _)).
      rewrite Ht in H1, H2. destruct Hline as [->| ->]; eauto. }
    exists (r' :: flat). cbn [for_each]. rewrite Hparse. cbn. rewrite Hflat.
    split; [done|]. constructor; [|done].
    intros r Hr Hstr.
    destruct (Hok r Hr) as (_ & _ & (r1 & H1 & He1) & (r2 & H2 & He2)).
    rewrite Hstr in H1, H2. destruct Hline as [->| ->]; congruence.
Qed.

(** X17. The text of `generate-rtd-reqs`, read back line by line, passes
    `validate-rtd-reqs` against the same `setup.json`, provided that the
    text of each requirement is not empty, has no line end in it, and
    parses back to the requirement with and without a line end after it. *)
Theorem generated_rtd_reqs_validate (setup_cfg : Setup) (content : string)
    (combined : list Requirement) :
  generate_requirements_for_rtd setup_cfg = Ok content ->
  combined_requirements setup_cfg = Ok combined ->
  Forall round_trips_as_line combined ->
  validate_rtd_reqs setup_cfg (file_lines content) = Ok tt.
Proof.
  intros Hgen Hcombined Hok.
  destruct laws as (Hrefl & Hsym & Htrans).
  unfold generate_requirements_for_rtd in Hgen. rewrite Hcombined in Hgen.
  cbn [mbind result_bind] in Hgen. injection Hgen as <-.
  set (texts := sorted_list (req_str <$> combined)).
  assert (forall t : string,
             t ∈ texts <-> exists r : Requirement, r ∈ combined /\ req_str r = t)
    as Htexts.
  { intros t. unfold texts, sorted_list.
    rewrite merge_sort_Permutation, list_elem_of_fmap.
    split; intros (r & Hr1 & Hr2); exists r; by split. }
  destruct (parse_lines_back combined texts
              (file_lines (Str.join newline texts)) Hok)
    as (flat & Hflat & Hall).
  { apply file_lines_join, Forall_forall. intros t (r & Hr & <-)%Htexts.
    rewrite Forall_forall in Hok. by destruct (Hok r Hr) as (? & ? & _). }
  { apply Forall_forall. intros t Ht. by apply Htexts. }
  unfold validate_rtd_reqs. rewrite Hcombined. cbn [mbind result_bind].
  rewrite Hflat. cbn [mbind result_bind].
  assert (set_eqb (set_of_list flat) combined = true) as ->; [|done].
  apply (set_eqb_same Hrefl Htrans). intros x.
  rewrite (set_mem_of_list Htrans). apply eq_true_iff_eq.
  rewrite !set_mem_true. split.
  - intros (r' & [i Hi]%list_elem_of_lookup & Hx).
    destruct (Forall2_lookup_r _ _ _ i r' Hall Hi) as (t & Ht & Hback).
    destruct (proj1 (Htexts t)) as (r & Hr & Hstr).
    { apply list_elem_of_lookup. eauto. }
    exists r. split; [done|].
    apply (Htrans x r' r Hx), Hsym. by apply Hback.
  - intros (r & Hr & Hx).
    assert (req_str r ∈ texts) as [i Hi]%list_elem_of_lookup
      by (apply Htexts; eauto).
    destruct (Forall2_lookup_l _ _ _ i _ Hall Hi) as (r' & Hi' & Hback).
    exists r'. split; [apply list_elem_of_lookup; eauto|].
    apply (Htrans x r r' Hx). by apply Hback.
Qed.

End RtdRoundTrip.

(** ** The further properties on the sample files *)

Lemma parsed_eqb_sym (x y : ParsedRequirement) :
  parsed_eqb x y = true -> parsed_eqb y x = true.
Proof.
  unfold parsed_eqb. rewrite !andb_true_iff, !String.eqb_eq.
  intros [[-> Hxy] Hyx]. by repeat split.
Qed.

Lemma table_laws (table : list (string * ParsedRequirement)) :
  @eqb_equivalence (table_resources table).
Proof.
  repeat split.
  - apply parsed_eqb_refl.
  - apply parsed_eqb_sym.
  - apply parsed_eqb_trans.
Qed.

(** X10 for `graphviz==0.13`. *)
Lemma setuptools_to_conda_mapping_witness :
  @_setuptools_to_conda conda_resources (clause "graphviz" "==" "0.13")
  = @parse conda_resources ("python-graphviz" ++ "==0.13").
Proof.
  apply (@setuptools_to_conda_mapping conda_resources
           (clause "graphviz" "==" "0.13") "graphviz" "python-graphviz" "==0.13").
  - unfold SETUPTOOLS_CONDA_MAPPINGS. right. left.
  - reflexivity.
  - reflexivity.
Defined.

(** X11 for an `environment.yml` that lists `six==1.12.0` only. *)
Lemma validate_without_python_witness :
  @validate_environment_yml sample_resources
    (sample_setup ["six==1.12.0"]) ["six==1.12.0"]
  = Raise ClickException
      "Did not find specification of Python version in 'environment.yml'.".
Proof.
  apply (@validate_without_python sample_resources
           (sample_setup ["six==1.12.0"]) ["six==1.12.0"]
           [clause "six" "==" "1.12.0"] (clause "python" ">=" "3.7")
           [clause "six" "==" "1.12.0"]).
  - reflexivity.
  - reflexivity.
  - reflexivity.
  - repeat constructor. discriminate.
Defined.

(** X12 for the sample files of a consistent pair. *)
Lemma validate_environment_yml_sound_witness :
  exists (install parsed : list ParsedRequirement) (python : ParsedRequirement),
    @for_each _ ParsedRequirement (@parse conda_resources)
      (install_requires conda_setup) = Ok install
    /\ @for_each _ ParsedRequirement (@parse conda_resources)
         conda_dependencies = Ok parsed
    /\ python ∈ @set_of_list conda_resources parsed
    /\ @req_name conda_resources python = "python"
    /\ (forall req : ParsedRequirement,
          req ∈ install -> @conda_ignored conda_resources req = false ->
          exists t : ParsedRequirement,
            @_setuptools_to_conda conda_resources req = Ok t
            /\ @set_mem conda_resources t
                 (@set_of_list conda_resources parsed) = true)
    /\ (forall d : ParsedRequirement,
          d ∈ @set_of_list conda_resources parsed ->
          @req_eqb conda_resources python d = false ->
          exists req t : ParsedRequirement,
            req ∈ install /\ @conda_ignored conda_resources req = false
            /\ @_setuptools_to_conda conda_resources req = Ok t
            /\ @req_eqb conda_resources t d = true).
Proof.
  apply (@validate_environment_yml_sound conda_resources
           conda_setup conda_dependencies).
  reflexivity.
Defined.

(** X13 for the requirement `pyblake2==1.1.2` of the sample `setup.json`. *)
Lemma conda_ignores_requirement_witness :
  @generate_environment_yml conda_resources conda_setup
  = @generate_environment_yml conda_resources
      (with_install conda_setup
         (["six==1.12.0"]
          ++ ["graphviz==0.13"; "psycopg2-binary==2.8.4"; "reentry==1.3.1"]))
  /\ @validate_environment_yml conda_resources conda_setup conda_dependencies
     = @validate_environment_yml conda_resources
         (with_install conda_setup
            (["six==1.12.0"]
             ++ ["graphviz==0.13"; "psycopg2-binary==2.8.4"; "reentry==1.3.1"]))
         conda_dependencies.
Proof.
  apply (@conda_ignores_requirement conda_resources conda_setup
           ["six==1.12.0"]
           ["graphviz==0.13"; "psycopg2-binary==2.8.4"; "reentry==1.3.1"]
           "pyblake2==1.1.2" (clause "pyblake2" "==" "1.1.2")
           conda_dependencies).
  - reflexivity.
  - reflexivity.
  - reflexivity.
Defined.

(** X14 for a `setup.json` without extras. *)
Lemma rtd_commands_need_the_groups_witness :
  @generate_requirements_for_rtd sample_resources (manifest ["six==1.12.0"])
  = Raise KeyError ("'" ++ "testing" ++ "'")
  /\ @validate_rtd_reqs sample_resources (manifest ["six==1.12.0"])
       ["six==1.12.0"]
     = Raise KeyError ("'" ++ "testing" ++ "'").
Proof.
  apply (@rtd_commands_need_the_groups sample_resources
           (manifest ["six==1.12.0"]) [] ["docs"; "rest"; "atomic_tools"]
           "testing" [clause "six" "==" "1.12.0"] [] ["six==1.12.0"]).
  - reflexivity.
  - reflexivity.
  - constructor.
  - constructor.
Defined.

(** X15 for the sample files, with `reentry==1.3.1` as the only build
    requirement of `pyproject.toml`. *)
Lemma validate_all_sound_witness :
  @validate_environment_yml conda_resources conda_setup conda_dependencies
  = Ok tt
  /\ @validate_rtd_reqs conda_resources conda_setup
       ["six==1.12.0" ++ newline; "sphinx==1.8.5" ++ newline;
        "reentry==1.3.1" ++ newline; "graphviz==0.13" ++ newline;
        "pyblake2==1.1.2" ++ newline; "psycopg2-binary==2.8.4"]
     = Ok tt
  /\ exists (install : list ParsedRequirement) (requires : list string)
       (build : list ParsedRequirement) (reentry : ParsedRequirement),
       @for_each _ ParsedRequirement (@parse conda_resources)
         (install_requires conda_setup) = Ok install
       /\ List.find
            (fun r => String.eqb (@req_name conda_resources r) "reentry")
            install
          = Some reentry
       /\ Some ["reentry==1.3.1"] = Some requires
       /\ @for_each _ ParsedRequirement (@parse conda_resources) requires
          = Ok build
       /\ @list_mem conda_resources reentry build = true.
Proof.
  apply (@validate_all_sound conda_resources conda_setup conda_dependencies
           (Some ["reentry==1.3.1"])
           ["six==1.12.0" ++ newline; "sphinx==1.8.5" ++ newline;
            "reentry==1.3.1" ++ newline; "graphviz==0.13" ++ newline;
            "pyblake2==1.1.2" ++ newline; "psycopg2-binary==2.8.4"]).
  reflexivity.
Defined.

(** X16 for the sample `setup.json`. *)
Lemma generated_environment_validates_witness :
  @validate_environment_yml conda_resources conda_setup
    (env_dependencies
       {| env_name := "aiida";
          env_channels := ["conda-forge"; "defaults"];
          env_dependencies := conda_dependencies |})
  = Ok tt.
Proof.
  apply (@generated_environment_validates conda_resources
           (table_laws conda_table) conda_setup
           {| env_name := "aiida";
              env_channels := ["conda-forge"; "defaults"];
              env_dependencies := conda_dependencies |}
           [clause "six" "==" "1.12.0"; clause "pyblake2" "==" "1.1.2";
            clause "graphviz" "==" "0.13";
            clause "psycopg2-binary" "==" "2.8.4";
            clause "reentry" "==" "1.3.1"]
           [clause "six" "==" "1.12.0"; clause "python-graphviz" "==" "0.13";
            clause "psycopg2" "==" "2.8.4"; clause "reentry" "==" "1.3.1"]
           (clause "python" "~=" "3.7") (clause "python" ">=" "3.5")).
  - reflexivity.
  - reflexivity.
  - repeat constructor; discriminate.
  - reflexivity.
  - cbn [distinct_requirements]. repeat split; repeat constructor.
  - repeat constructor; eexists; split; reflexivity.
  - reflexivity.
  - reflexivity.
  - reflexivity.
  - reflexivity.
Defined.

(** X17 for the sample `setup.json`. *)
Lemma generated_rtd_reqs_validate_witness :
  @validate_rtd_reqs conda_resources conda_setup
    (file_lines
       ("graphviz==0.13" ++ newline ++ "psycopg2-binary==2.8.4" ++ newline
        ++ "pyblake2==1.1.2" ++ newline ++ "reentry==1.3.1" ++ newline
        ++ "six==1.12.0" ++ newline ++ "sphinx==1.8.5"))
  = Ok tt.
Proof.
  apply (@generated_rtd_reqs_validate conda_resources
           (table_laws conda_table) conda_setup
           ("graphviz==0.13" ++ newline ++ "psycopg2-binary==2.8.4" ++ newline
            ++ "pyblake2==1.1.2" ++ newline ++ "reentry==1.3.1" ++ newline
            ++ "six==1.12.0" ++ newline ++ "sphinx==1.8.5")
           [clause "six" "==" "1.12.0"; clause "pyblake2" "==" "1.1.2";
            clause "graphviz" "==" "0.13";
            clause "psycopg2-binary" "==" "2.8.4";
            clause "reentry" "==" "1.3.1"; clause "sphinx" "==" "1.8.5"]).
  - reflexivity.
  - reflexivity.
  - repeat (apply Forall_cons; split); try apply Forall_nil;
      try exact I;
      (split; [discriminate|]); (split; [reflexivity|]);
      split; eexists; split; reflexivity.
Defined.
